(** * Akasha MCP gateway: the JSON-RPC dispatcher and its two transports

    A shallow embedding of the gateway's message handling:
    - [Server]     : the first program of src/server.js, where
                     [handleRpcMessage] is shared by the WebSocket and the SSE
                     handlers;
    - [ServerCors] : the revision with CORS and SSE keep-alive, whose
                     [handleRpcMessage] starts with the [!method] guard;
    - [Lite]       : the "MCP (lite)" gateway, a single WebSocket handler.
    The other WebSocket-only programs of the repository (they have no shared
    handler) are not modelled.

    JavaScript values that come out of [JSON.parse] are modelled by [json];
    [undefined] is [None] of [option json].  The backend, the JSON decoder and
    the environment are an explicit [World] the handlers run against; what a
    handler does to the outside (frames sent, SSE events written, HTTP replies,
    backend calls) is recorded as a list of [event]s.  Logging is left out,
    and so are failures of delivery itself ([ws.send], [res.write]). *)

From Stdlib Require Import String List Bool NArith FloatClass PrimFloat DecimalString.
Import ListNotations.
Open Scope string_scope.
Set Warnings "-register-all".

(** ** JSON values *)

Inductive json : Type :=
| JNull
| JBool (b : bool)
| JNum (n : float)
| JStr (s : string)
| JArr (items : list json)
| JObj (fields : list (string * json)).

(** Own property [k] of a parsed object (its keys are distinct). *)
Fixpoint assoc (k : string) (fields : list (string * json)) : option json :=
  match fields with
  | [] => None
  | (k', v) :: rest => if String.eqb k k' then Some v else assoc k rest
  end.

(** [v.k] for a value [v] that is neither [null] nor [undefined], and a
    property name [k] that no primitive wrapper or array defines (every name
    the gateway reads: id, method, params, name, arguments, query,
    traditions, topK, lang). *)
Definition get (v : json) (k : string) : option json :=
  match v with
  | JObj fields => assoc k fields
  | _ => None
  end.

(** [v?.k] *)
Definition get_opt (v : option json) (k : string) : option json :=
  match v with
  | None | Some JNull => None
  | Some v => get v k
  end.

(** [v ?? d] *)
Definition nullish (v : option json) (d : json) : json :=
  match v with
  | None | Some JNull => d
  | Some v => v
  end.

(** JavaScript truthiness of a parsed value or [undefined]. *)
Definition truthy (v : option json) : bool :=
  match v with
  | None | Some JNull => false
  | Some (JBool b) => b
  | Some (JNum n) => negb (PrimFloat.eqb n 0 || PrimFloat.is_nan n)
  | Some (JStr s) => negb (String.eqb s "")
  | Some (JArr _) | Some (JObj _) => true
  end.

(** [v === s] for a string literal [s]. *)
Definition is_str (v : option json) (s : string) : bool :=
  match v with
  | Some (JStr s') => String.eqb s' s
  | _ => false
  end.

(** An object literal whose property values may be [undefined]. *)
Definition object_literal := list (string * option json).

(** The number [JSON.stringify] writes for [n]: [null] for a number that is
    not finite ([JSON.parse] gives [Infinity] for [1e999]), [0] for [-0], and
    [n] itself otherwise (the digits written read back as the same number). *)
Definition written_number (n : float) : json :=
  match classify n with
  | NaN | PInf | NInf => JNull
  | NZero => JNum 0
  | _ => JNum n
  end.

(** The value that the text [JSON.stringify] writes for a parsed value [v]
    denotes. *)
Fixpoint written (v : json) : json :=
  match v with
  | JNum n => written_number n
  | JArr items => JArr (map written items)
  | JObj fields => JObj (map (fun kv => (fst kv, written (snd kv))) fields)
  | other => other
  end.

(** The properties [JSON.stringify] writes for an object literal: those whose
    value is [undefined] are omitted, the others are written as [written]
    says. *)
Fixpoint defined_properties (o : object_literal) : list (string * json) :=
  match o with
  | [] => []
  | (k, None) :: rest => defined_properties rest
  | (k, Some v) :: rest => (k, written v) :: defined_properties rest
  end.

(** [o.k] for an object literal [o] whose keys are distinct. *)
Fixpoint property (o : object_literal) (k : string) : option json :=
  match o with
  | [] => None
  | (k', v) :: rest => if String.eqb k k' then v else property rest k
  end.

(** A value that [JSON.stringify] writes as it is: it holds no number that
    is not finite and no [-0]. *)
Fixpoint unchanged_when_written (v : json) : bool :=
  match v with
  | JNum n =>
      match classify n with
      | NaN | PInf | NInf | NZero => false
      | _ => true
      end
  | JArr items => forallb unchanged_when_written items
  | JObj fields => forallb (fun kv => unchanged_when_written (snd kv)) fields
  | _ => true
  end.

(** The JSON document that [JSON.stringify(o)] denotes. *)
Definition JSON_stringify (o : object_literal) : json :=
  JObj (defined_properties o).

(** ** Effects *)

(** A thrown value, kept as the text [String(e)] gives for it. *)
Inductive js_error : Type :=
| Thrown (description : string).

Definition String_of (e : js_error) : string :=
  match e with Thrown d => d end.

(** How an evaluation ends: with a value, or by throwing (a rejected promise
    for an [async] function). *)
Inductive outcome (A : Type) : Type :=
| Returned (a : A)
| Threw (e : js_error).
Arguments Returned {A} a.
Arguments Threw {A} e.

(** What node-fetch's [Response] shows the gateway: [r.ok], [r.status], and
    what awaiting [r.text()] and [r.json()] gives. *)
Record Response : Type := mkResponse {
  ok : bool;
  status : N;
  text : outcome string;
  json_body : outcome json
}.

(** The body of an HTTP reply: plain text, or a JSON document. *)
Inductive http_body : Type :=
| TextBody (s : string)
| JsonBody (doc : json).

(** What a handler does to the outside. *)
Inductive event : Type :=
| Fetch (url : string) (method : string) (content_type : string) (body : json)
| WsSend (frame : json)
| SseWrite (event_name : string) (data : json)
| HttpReply (code : N) (body : http_body).

(** The collaborators a handler runs against. *)
Record World : Type := mkWorld {
  FASTAPI_URL : string;
  JSON_parse : string -> outcome json;
  fetch : string -> json -> outcome Response
}.

(** A computation: reads the world, records events, ends in an outcome. *)
Definition M (A : Type) : Type := World -> list event * outcome A.

Definition ret {A} (a : A) : M A := fun _ => ([], Returned a).

Definition throw {A} (e : js_error) : M A := fun _ => ([], Threw e).

Definition bind {A B} (m : M A) (k : A -> M B) : M B :=
  fun w =>
    match m w with
    | (t, Returned a) => let (t', r) := k a w in ((t ++ t')%list, r)
    | (t, Threw e) => (t, Threw e)
    end.

(** [try { m } catch (e) { handler e }] *)
Definition try_catch {A} (m : M A) (handler : js_error -> M A) : M A :=
  fun w =>
    match m w with
    | (t, Returned a) => (t, Returned a)
    | (t, Threw e) => let (t', r) := handler e w in ((t ++ t')%list, r)
    end.

Definition emit (ev : event) : M unit := fun _ => ([ev], Returned tt).

Definition lift {A} (o : outcome A) : M A := fun _ => ([], o).

Declare Scope js_scope.
Delimit Scope js_scope with js.
Notation "x <- m ;; k" := (bind m (fun x => k))
  (at level 61, m at next level, right associativity) : js_scope.
Notation "m ;;; k" := (bind m (fun _ => k))
  (at level 61, right associativity) : js_scope.
Open Scope js_scope.

(** [await fetch(url, { method: "POST", headers: { "Content-Type":
    "application/json" }, body: JSON.stringify(body) })] *)
Definition await_fetch (url : string) (body : object_literal) : M Response :=
  fun w =>
    let doc := JSON_stringify body in
    ([Fetch url "POST" "application/json" doc], fetch w url doc).

(** The [TypeError]s thrown on [null], in the words of Node's engine:
    reading the property [k], and destructuring the property [k] out of the
    variable [name]. *)
Definition cannot_read (k : string) : js_error :=
  Thrown ("TypeError: Cannot read properties of null (reading '" ++ k ++ "')").

Definition cannot_destructure (k name : string) : js_error :=
  Thrown ("TypeError: Cannot destructure property '" ++ k ++ "' of '" ++ name
          ++ "' as it is null.").

(** [root.k] *)
Definition member (root : json) (k : string) : M (option json) :=
  match root with
  | JNull => throw (cannot_read k)
  | _ => ret (get root k)
  end.

(** [k] as bound by [const { ..., k, ... } = name], where [name] holds
    [root]. *)
Definition destructured (root : json) (name k : string) : M (option json) :=
  match root with
  | JNull => throw (cannot_destructure k name)
  | _ => ret (get root k)
  end.

(** [v || {}] *)
Definition or_empty (v : option json) : json :=
  match v with
  | Some x => if truthy v then x else JObj []
  | None => JObj []
  end.

(** A template literal's rendering of an integral number. *)
Definition decimal (n : N) : string := NilZero.string_of_uint (N.to_uint n).

(** [process.env.FASTAPI_URL] *)
Definition env_FASTAPI_URL : M string := fun w => ([], Returned (FASTAPI_URL w)).

(** [JSON.parse(raw)] *)
Definition parse (raw : string) : M json := fun w => ([], JSON_parse w raw).

(** The WebSocket frames and the backend request bodies among the events. *)
Definition frames (t : list event) : list json :=
  flat_map (fun ev => match ev with WsSend f => [f] | _ => [] end) t.

Definition backend_calls (t : list event) : list json :=
  flat_map (fun ev => match ev with Fetch _ _ _ b => [b] | _ => [] end) t.

(** Every protocol response delivered, on either transport. *)
Definition responses (t : list event) : list json :=
  flat_map (fun ev => match ev with
                      | WsSend f => [f]
                      | SseWrite _ d => [d]
                      | _ => []
                      end) t.

(** ** Constants and the tool registry *)

Definition PROTOCOL_VERSION : string := "2024-05-14".
Definition SERVER_NAME : string := "akasha-mcp".
Definition SERVER_VERSION : string := "0.1.0".

Definition inputSchema : json :=
  JObj [
    ("type", JStr "object");
    ("properties", JObj [
       ("query", JObj [("type", JStr "string")]);
       ("traditions", JObj [("oneOf", JArr [
           JObj [("type", JStr "string")];
           JObj [("type", JStr "array"); ("items", JObj [("type", JStr "string")])]])]);
       ("topK", JObj [("type", JStr "number"); ("default", JNum 6)]);
       ("lang", JObj [("type", JStr "string")])]);
    ("required", JArr [JStr "query"; JStr "traditions"])].

Definition tool_description : string :=
  "Embed + search via Akasha FastAPI /query. Args: query, traditions (string|array), topK, lang.".

(** ** Shapes of the response literals *)

(** [{ jsonrpc: "2.0", id, result }] *)
Definition result_response (id : option json) (result : json) : object_literal :=
  [("jsonrpc", Some (JStr "2.0")); ("id", id); ("result", Some result)].

(** [{ jsonrpc: "2.0", id, error: { code, message } }] *)
Definition error_response (id : option json) (code : float) (message : string)
  : object_literal :=
  [("jsonrpc", Some (JStr "2.0")); ("id", id);
   ("error", Some (JObj [("code", JNum code); ("message", JStr message)]))].

(** [{ content: [{ type: "text", text }], isError: true }] *)
Definition text_error_result (txt : string) : json :=
  JObj [("content", JArr [JObj [("type", JStr "text"); ("text", JStr txt)]]);
        ("isError", JBool true)].

(** [{ content: [{ type: "json", data }], isError: false }] *)
Definition json_result (data : json) : json :=
  JObj [("content", JArr [JObj [("type", JStr "json"); ("data", data)]]);
        ("isError", JBool false)].

(** The [body] literal of the tools/call branch (the same in every variant). *)
Definition request_body (args : option json) : object_literal :=
  [("query", get_opt args "query");
   ("traditions", get_opt args "traditions");
   ("topK", Some (nullish (get_opt args "topK") (JNum 6)));
   ("lang", Some (nullish (get_opt args "lang") JNull))].

(** ** src/server.js *)

Module Server.

(** Advertises both casings of the schema key. *)
Definition toolSpec : json :=
  JObj [("name", JStr "qdrant_search");
        ("description", JStr tool_description);
        ("input_schema", inputSchema);
        ("inputSchema", inputSchema)].

Definition handleRpcMessage (msg : json) (responder : object_literal -> M unit)
  : M unit :=
  id <- destructured msg "msg" "id" ;;
  method <- destructured msg "msg" "method" ;;
  if is_str method "initialize" then
    responder (result_response id (JObj [
      ("protocolVersion", JStr PROTOCOL_VERSION);
      ("serverInfo", JObj [("name", JStr SERVER_NAME); ("version", JStr SERVER_VERSION)]);
      ("capabilities", JObj [
         ("tools", JObj [("list", JBool true); ("call", JBool true)]);
         ("prompts", JObj [("list", JBool true)]);
         ("resources", JObj [("list", JBool true)])])]))
  else if is_str method "notifications/initialized" then
    responder (result_response id (JObj [("ok", JBool true)]))
  else if is_str method "ping" then
    responder (result_response id (JObj [("ok", JBool true)]))
  else if is_str method "resources/list" then
    responder (result_response id (JObj [("resources", JArr [])]))
  else if is_str method "prompts/list" then
    responder (result_response id (JObj [("prompts", JArr [])]))
  else if is_str method "tools/list" || is_str method "listTools"
          || is_str method "getTools" || is_str method "get_tools"
          || is_str method "list_tools" then
    responder (result_response id (JObj [("tools", JArr [toolSpec])]))
  else if is_str method "tools/call" then
    params <- member msg "params" ;;
    let name := get (or_empty params) "name" in
    let args := get (or_empty params) "arguments" in
    if negb (is_str name "qdrant_search") then
      responder (error_response id (-32601) "Unknown tool")
    else
      try_catch
        (base <- env_FASTAPI_URL ;;
         r <- await_fetch (base ++ "/query") (request_body args) ;;
         if negb (ok r) then
           errTxt <- lift (text r) ;;
           responder (result_response id
             (text_error_result ("FastAPI " ++ decimal (status r) ++ ": " ++ errTxt)))
         else
           data <- lift (json_body r) ;;
           responder (result_response id (json_result data)))
        (fun e =>
           responder (result_response id
             (text_error_result ("Gateway error: " ++ String_of e))))
  else
    responder (error_response id (-32601) "Method not found").

(** [sendJSON(wsOrRes, obj)]: sends only when the sink has a [send] method. *)
Definition sendJSON (has_send : bool) (obj : object_literal) : M unit :=
  if has_send then emit (WsSend (JSON_stringify obj)) else ret tt.

(** [ws.on("message", async (buf) => ...)]; a WebSocket has [send]. *)
Definition ws_on_message (buf : string) : M unit :=
  decoded <- try_catch (msg <- parse buf ;; ret (Some msg)) (fun _ => ret None) ;;
  match decoded with
  | None => ret tt
  | Some msg => handleRpcMessage msg (sendJSON true)
  end.

(** An entry of the [clients] map: [{ res, alive }]. *)
Record sse_client : Type := mkClient { alive : bool }.

Definition clients_map := list (string * sse_client).

Fixpoint clients_get (clients : clients_map) (cid : string) : option sse_client :=
  match clients with
  | [] => None
  | (c, entry) :: rest => if String.eqb cid c then Some entry else clients_get rest cid
  end.

Definition clients_has (clients : clients_map) (cid : string) : bool :=
  match clients_get clients cid with Some _ => true | None => false end.

(** The responder of the SSE POST handler: writes one [message] event while
    the stream found at [end] time is alive. *)
Definition sse_responder (stream : option sse_client) (obj : object_literal) : M unit :=
  match stream with
  | Some entry =>
      if alive entry then emit (SseWrite "message" (JSON_stringify obj)) else ret tt
  | None => ret tt
  end.

(** [req.on("end", async () => ...)] of POST /sse, with the [clients] map as
    it is when the body has been read. *)
Definition sse_post_end (clients : clients_map) (cid raw : string) : M unit :=
  try_catch
    (msg <- parse raw ;;
     handleRpcMessage msg (sse_responder (clients_get clients cid)) ;;;
     emit (HttpReply 200 (JsonBody (JObj [("ok", JBool true)]))))
    (fun _ => emit (HttpReply 400 (TextBody "bad json"))).

(** POST /sse: [cid] is [(query?.cid || "").toString()]. *)
Definition sse_post (clients_on_request clients_on_end : clients_map)
  (cid raw : string) : M unit :=
  if String.eqb cid "" || negb (clients_has clients_on_request cid)
  then emit (HttpReply 400 (TextBody "invalid cid"))
  else sse_post_end clients_on_end cid raw.

End Server.

(** ** The revision with CORS and keep-alive (second program of
       src/unnamed/part_000) *)

Module ServerCors.

Definition toolSpec : json := Server.toolSpec.

Definition handleRpcMessage (msg : json) (respond : object_literal -> M unit)
  : M unit :=
  let id := get (or_empty (Some msg)) "id" in
  let method := get (or_empty (Some msg)) "method" in
  if negb (truthy method) then ret tt
  else if is_str method "initialize" then
    respond (result_response id (JObj [
      ("protocolVersion", JStr PROTOCOL_VERSION);
      ("serverInfo", JObj [("name", JStr SERVER_NAME); ("version", JStr SERVER_VERSION)]);
      ("capabilities", JObj [
         ("tools", JObj [("list", JBool true); ("call", JBool true)]);
         ("prompts", JObj [("list", JBool true)]);
         ("resources", JObj [("list", JBool true)])])]))
  else if is_str method "notifications/initialized" then
    respond (result_response id (JObj [("ok", JBool true)]))
  else if is_str method "ping" then
    respond (result_response id (JObj [("ok", JBool true)]))
  else if is_str method "resources/list" then
    respond (result_response id (JObj [("resources", JArr [])]))
  else if is_str method "prompts/list" then
    respond (result_response id (JObj [("prompts", JArr [])]))
  else if existsb (is_str method)
            ["tools/list"; "listTools"; "getTools"; "get_tools"; "list_tools"] then
    respond (result_response id (JObj [("tools", JArr [toolSpec])]))
  else if is_str method "tools/call" then
    params <- member msg "params" ;;
    let name := get (or_empty params) "name" in
    let args := get (or_empty params) "arguments" in
    if negb (is_str name "qdrant_search") then
      respond (error_response id (-32601) "Unknown tool")
    else
      try_catch
        (base <- env_FASTAPI_URL ;;
         r <- await_fetch (base ++ "/query") (request_body args) ;;
         if negb (ok r) then
           errTxt <- lift (text r) ;;
           respond (result_response id
             (text_error_result ("FastAPI " ++ decimal (status r) ++ ": " ++ errTxt)))
         else
           data <- lift (json_body r) ;;
           respond (result_response id (json_result data)))
        (fun e =>
           respond (result_response id
             (text_error_result ("Gateway error: " ++ String_of e))))
  else
    respond (error_response id (-32601) "Method not found").

(** [ws.on("message", async (buf) => ...)] *)
Definition ws_on_message (buf : string) : M unit :=
  decoded <- try_catch (msg <- parse buf ;; ret (Some msg)) (fun _ => ret None) ;;
  match decoded with
  | None => ret tt
  | Some msg => handleRpcMessage msg (fun obj => emit (WsSend (JSON_stringify obj)))
  end.

(** The [clients] map holds [{ res, keepAliveInterval }]; only the keys
    matter to the POST handler. *)
Definition clients_map := list string.

Definition clients_has (clients : clients_map) (cid : string) : bool :=
  existsb (String.eqb cid) clients.

(** [req.on("end", async () => ...)] of POST /sse; the responder writes to the
    stream [ch] found when the request arrived. *)
Definition sse_post_end (raw : string) : M unit :=
  try_catch
    (msg <- parse raw ;;
     handleRpcMessage msg (fun obj => emit (SseWrite "message" (JSON_stringify obj))) ;;;
     emit (HttpReply 200 (JsonBody (JObj [("ok", JBool true)]))))
    (fun _ => emit (HttpReply 400 (TextBody "bad json"))).

(** POST /sse *)
Definition sse_post (clients : clients_map) (cid raw : string) : M unit :=
  if String.eqb cid "" || negb (clients_has clients cid)
  then emit (HttpReply 400 (TextBody "invalid cid"))
  else sse_post_end raw.

End ServerCors.

(** ** The lite gateway (first program of src/unnamed/part_000) *)

Module Lite.

Definition toolSpec : json :=
  JObj [("name", JStr "qdrant_search");
        ("description", JStr tool_description);
        ("inputSchema", inputSchema)].

Definition ws_send (obj : object_literal) : M unit :=
  emit (WsSend (JSON_stringify obj)).

(** The body of [ws.on("message", ...)] once [req] has been decoded.  The
    source reads [req.id] where each response literal is built; [req] is
    never written, so reading it once after [req.method] gives the same
    value. *)
Definition dispatch (req : json) : M unit :=
  method <- member req "method" ;;
  id <- member req "id" ;;
  if is_str method "initialize" then
    ws_send (result_response id (JObj [
      ("protocolVersion", JStr "2024-05-14");
      ("capabilities", JObj [])]))
  else if is_str method "tools/list" then
    ws_send (result_response id (JObj [("tools", JArr [toolSpec])]))
  else if is_str method "tools/call" then
    params <- member req "params" ;;
    let name := get (or_empty params) "name" in
    let args := get (or_empty params) "arguments" in
    if negb (is_str name "qdrant_search") then
      ws_send (error_response id (-32601) "Unknown tool")
    else
      try_catch
        (base <- env_FASTAPI_URL ;;
         r <- await_fetch (base ++ "/query") (request_body args) ;;
         data <- lift (json_body r) ;;
         ws_send (result_response id (json_result data)))
        (fun e =>
           ws_send (result_response id
             (text_error_result ("Gateway error: " ++ String_of e))))
  else
    ws_send (error_response id (-32601) "Method not found").

(** [ws.on("message", async (buf) => ...)] *)
Definition ws_on_message (buf : string) : M unit :=
  decoded <- try_catch (msg <- parse buf ;; ret (Some msg)) (fun _ => ret None) ;;
  match decoded with
  | None => ret tt
  | Some req => dispatch req
  end.

End Lite.

(** ** Vocabulary of the statements *)

(** [name] and [args] as the tools/call branch destructures them from
    [msg.params || {}]. *)
Definition tool_name (msg : json) : option json :=
  get (or_empty (get msg "params")) "name".

Definition tool_arguments (msg : json) : option json :=
  get (or_empty (get msg "params")) "arguments".

(** The one request a tools/call sends to the backend, and its reply. *)
Definition backend_call (w : World) (args : option json) : event :=
  Fetch (FASTAPI_URL w ++ "/query") "POST" "application/json"
        (JSON_stringify (request_body args)).

Definition backend_reply (w : World) (args : option json) : outcome Response :=
  fetch w (FASTAPI_URL w ++ "/query") (JSON_stringify (request_body args)).

(** A step of the backend invocation raises [e]: the request itself, reading
    the body of a non-success reply as text, or decoding the body of a
    success reply. *)
Inductive raises (w : World) (args : option json) (e : js_error) : Prop :=
| raises_fetch :
    backend_reply w args = Threw e -> raises w args e
| raises_text (r : Response) :
    backend_reply w args = Returned r -> ok r = false -> text r = Threw e ->
    raises w args e
| raises_json (r : Response) :
    backend_reply w args = Returned r -> ok r = true -> json_body r = Threw e ->
    raises w args e.

(** The [try { ... } catch (e) { ... }] block of [handleRpcMessage]'s
    tools/call branch, as both revisions of the handler have it. *)
Definition invoke_backend (id args : option json)
  (responder : object_literal -> M unit) : M unit :=
  try_catch
    (base <- env_FASTAPI_URL ;;
     r <- await_fetch (base ++ "/query") (request_body args) ;;
     if negb (ok r) then
       errTxt <- lift (text r) ;;
       responder (result_response id
         (text_error_result ("FastAPI " ++ decimal (status r) ++ ": " ++ errTxt)))
     else
       data <- lift (json_body r) ;;
       responder (result_response id (json_result data)))
    (fun e =>
       responder (result_response id
         (text_error_result ("Gateway error: " ++ String_of e)))).

(** The ToolResult that the [try]/[catch] block reports for a reply of the
    backend. *)
Definition tool_result (reply : outcome Response) : json :=
  match reply with
  | Threw e => text_error_result ("Gateway error: " ++ String_of e)
  | Returned r =>
      if ok r then
        match json_body r with
        | Returned data => json_result data
        | Threw e => text_error_result ("Gateway error: " ++ String_of e)
        end
      else
        match text r with
        | Returned errTxt =>
            text_error_result ("FastAPI " ++ decimal (status r) ++ ": " ++ errTxt)
        | Threw e => text_error_result ("Gateway error: " ++ String_of e)
        end
  end.

(** A responder that delivers without throwing. *)
Definition quiet (responder : object_literal -> M unit) : Prop :=
  forall obj w, snd (responder obj w) = Returned tt.

(** A responder that delivers nothing but the document of the object it is
    given. *)
Definition faithful (responder : object_literal -> M unit) : Prop :=
  forall obj w resp,
    In resp (responses (fst (responder obj w))) -> resp = JSON_stringify obj.

(** The result of the full gateway's handshake. *)
Definition initialize_result : json :=
  JObj [
    ("protocolVersion", JStr PROTOCOL_VERSION);
    ("serverInfo", JObj [("name", JStr SERVER_NAME); ("version", JStr SERVER_VERSION)]);
    ("capabilities", JObj [
       ("tools", JObj [("list", JBool true); ("call", JBool true)]);
       ("prompts", JObj [("list", JBool true)]);
       ("resources", JObj [("list", JBool true)])])].

(** ** Sample worlds and messages *)

(** The double quote, and a quoted JSON string without escapes. *)
Definition dquote : string := String (Ascii.ascii_of_nat 34) EmptyString.

Definition quoted (s : string) : string := dquote ++ s ++ dquote.

(** The texts of two sample frames: a handshake, and a message that has an
    [id] but no [method]. *)
Definition raw_initialize : string :=
  "{" ++ quoted "method" ++ ":" ++ quoted "initialize" ++ "," ++ quoted "id" ++ ":1}".

Definition raw_without_method : string := "{" ++ quoted "id" ++ ":7}".

Definition msg_initialize : json :=
  JObj [("method", JStr "initialize"); ("id", JNum 1)].

Definition msg_without_method : json := JObj [("id", JNum 7)].

(** A decoder that knows a few JSON documents and rejects everything else. *)
Definition sample_parse (raw : string) : outcome json :=
  if String.eqb raw "null" then Returned JNull
  else if String.eqb raw "{}" then Returned (JObj [])
  else if String.eqb raw raw_initialize then Returned msg_initialize
  else if String.eqb raw raw_without_method then Returned msg_without_method
  else Threw (Thrown "SyntaxError: Unexpected token").

Definition snippets : json :=
  JObj [("snippets", JArr [JStr "All conditioned things are impermanent."])].

(** A backend that answers 200 with a JSON body. *)
Definition world_ok : World :=
  mkWorld "http://backend" sample_parse
    (fun _ _ => Returned (mkResponse true 200 (Returned "") (Returned snippets))).

(** A backend that answers 500 with the body [oops], which is not JSON. *)
Definition world_500 : World :=
  mkWorld "http://backend" sample_parse
    (fun _ _ => Returned (mkResponse false 500 (Returned "oops")
                            (Threw (Thrown "SyntaxError: Unexpected token o")))).

(** A backend that cannot be reached. *)
Definition world_down : World :=
  mkWorld "http://backend" sample_parse
    (fun _ _ => Threw (Thrown "FetchError: connect ECONNREFUSED")).

Definition msg_search : json :=
  JObj [("jsonrpc", JStr "2.0"); ("id", JNum 2); ("method", JStr "tools/call");
        ("params", JObj [("name", JStr "qdrant_search");
                         ("arguments", JObj [("query", JStr "karma");
                                             ("traditions", JStr "buddhism")])])].

Definition msg_other_tool : json :=
  JObj [("jsonrpc", JStr "2.0"); ("id", JNum 3); ("method", JStr "tools/call");
        ("params", JObj [("name", JStr "web_search")])].

Definition msg_call_without_params : json :=
  JObj [("jsonrpc", JStr "2.0"); ("id", JNum 4); ("method", JStr "tools/call")].

(** A ping whose id is the number [1e999], which [JSON.parse] reads as
    [Infinity], and a decoder that knows its text. *)
Definition raw_ping_1e999 : string :=
  "{" ++ quoted "id" ++ ":1e999," ++ quoted "method" ++ ":" ++ quoted "ping" ++ "}".

Definition msg_ping_1e999 : json :=
  JObj [("id", JNum infinity); ("method", JStr "ping")].

Definition world_1e999 : World :=
  mkWorld "http://backend"
    (fun raw => if String.eqb raw raw_ping_1e999 then Returned msg_ping_1e999
                else Threw (Thrown "SyntaxError: Unexpected token"))
    (fun _ _ => Returned (mkResponse true 200 (Returned "") (Returned snippets))).

(** A search whose [topK] is the number [1e999]. *)
Definition msg_search_1e999 : json :=
  JObj [("jsonrpc", JStr "2.0"); ("id", JNum 6); ("method", JStr "tools/call");
        ("params", JObj [("name", JStr "qdrant_search");
                         ("arguments", JObj [("query", JStr "karma");
                                             ("traditions", JStr "buddhism");
                                             ("topK", JNum infinity)])])].

Definition msg_call_without_arguments : json :=
  JObj [("jsonrpc", JStr "2.0"); ("id", JNum 5); ("method", JStr "tools/call");
        ("params", JObj [("name", JStr "qdrant_search")])].

(** * The rest of the programs *)

(** ** The HTTP layer *)

(** What the [http.createServer] callbacks read of a request: [req.method],
    the [pathname] of the parsed URL ([None] for [null]), the values the
    query string gives for [cid], in order, and three headers. *)
Record Request : Type := mkRequest {
  req_method : string;
  pathname : option string;
  cid_values : list string;
  x_forwarded_host : option string;
  host : option string;
  x_forwarded_proto : option string
}.

(** What a callback does with the response: [writeHead] and [end]; or an
    event stream left open after its first event, with the period of its
    keep-alive timer if it has one; or, for an accepted POST, waiting for the
    body (the [end] handler then runs). *)
Inductive served : Type :=
| Ended (code : N) (headers : list (string * string)) (body : option http_body)
| EventStream (headers : list (string * string)) (opening : string * json)
    (keep_alive_ms : option N)
| ReadingBody (cid : string).

(** [(query?.cid || "").toString()]: the query parser gives a string for one
    value and an array for several; an array is truthy and prints joined by
    commas. *)
Definition query_cid (values : list string) : string :=
  match values with
  | [] => ""
  | [s] => s
  | _ => String.concat "," values
  end.

(** [a || b] on header values (a string or [undefined]). *)
Definition first_truthy (a b : option string) : option string :=
  match a with
  | Some s => if String.eqb s "" then b else Some s
  | None => b
  end.

(** A value inside a template literal. *)
Definition render (v : option string) : string :=
  match v with
  | Some s => s
  | None => "undefined"
  end.

(** [pathname === p] *)
Definition path_is (req : Request) (p : string) : bool :=
  match pathname req with
  | Some q => String.eqb q p
  | None => false
  end.

Definition json_content_type : list (string * string) :=
  [("Content-Type", "application/json")].

(** The discovery document of the programs that advertise SSE. *)
Definition sse_discovery (req : Request) : json :=
  let host := first_truthy (x_forwarded_host req) (host req) in
  let proto := render (first_truthy (x_forwarded_proto req) (Some "https")) in
  let base := proto ++ "://" ++ render host in
  JObj [("mcp", JObj [
    ("name", JStr SERVER_NAME);
    ("version", JStr SERVER_VERSION);
    ("protocol", JStr PROTOCOL_VERSION);
    ("transport", JObj [("type", JStr "sse"); ("url", JStr (base ++ "/sse"))])])].

(** The discovery document of the WebSocket-only programs. *)
Definition websocket_discovery (req : Request) : json :=
  let host := first_truthy (x_forwarded_host req) (host req) in
  let proto := render (first_truthy (x_forwarded_proto req) (Some "https")) in
  let wsProto := if String.eqb proto "https" then "wss" else "ws" in
  let mcpUrl := wsProto ++ "://" ++ render host ++ "/mcp" in
  JObj [("mcp", JObj [
    ("name", JStr SERVER_NAME);
    ("version", JStr SERVER_VERSION);
    ("protocol", JStr PROTOCOL_VERSION);
    ("transport", JObj [("type", JStr "websocket"); ("url", JStr mcpUrl)])])].

(** The health document of the programs that serve SSE. *)
Definition sse_health (w : World) : json :=
  JObj [("ok", JBool true); ("docs", JStr "/.well-known/mcp"); ("ws", JStr "/mcp");
        ("sse", JStr "/sse"); ("fastapi", JStr (FASTAPI_URL w))].

(** What [handleProtocols] may be given: nothing, a string, an array of
    strings (what older versions of the WebSocket library pass) or a [Set] of
    strings (what newer versions pass). *)
Inductive protocols_value : Type :=
| ProtocolsUndefined
| ProtocolsNull
| ProtocolsString (s : string)
| ProtocolsArray (offered : list string)
| ProtocolsSet (offered : list string).

(** [x || undefined] for a string or [undefined]. *)
Definition truthy_string (x : option string) : option string :=
  match x with
  | Some s => if String.eqb s "" then None else Some s
  | None => None
  end.

(** [protocols?.[0]]: the first element of an array, the first character of
    a string (of ASCII characters, as subprotocol names are); a [Set] has no
    property [0]. *)
Definition first_of (protocols : protocols_value) : option string :=
  match protocols with
  | ProtocolsArray (first :: _) => Some first
  | ProtocolsString (String c _) => Some (String c EmptyString)
  | _ => None
  end.

(** [handleProtocols] *)
Definition handleProtocols (protocols : protocols_value) : option string :=
  match protocols with
  | ProtocolsArray offered =>
      if existsb (String.eqb "mcp") offered then Some "mcp"
      else truthy_string (first_of protocols)
  | _ => truthy_string (first_of protocols)
  end.

(** [server.on("upgrade", ...)]: only [/mcp] is handed to the WebSocket
    server; any other socket is destroyed. *)
Definition upgrade_accepted (path : option string) : bool :=
  match path with
  | Some p => String.eqb p "/mcp"
  | None => false
  end.

(** *** src/server.js *)

Module ServerHttp.

(** [clients.delete(cid)] *)
Fixpoint clients_delete (clients : Server.clients_map) (cid : string)
  : Server.clients_map :=
  match clients with
  | [] => []
  | (c, entry) :: rest =>
      if String.eqb cid c then clients_delete rest cid
      else (c, entry) :: clients_delete rest cid
  end.

(** [clients.set(cid, entry)]: replaces the entry of [cid], if any. *)
Definition clients_set (clients : Server.clients_map) (cid : string)
  (entry : Server.sse_client) : Server.clients_map :=
  (cid, entry) :: clients_delete clients cid.

Definition stream_headers : list (string * string) :=
  [("Content-Type", "text/event-stream"); ("Cache-Control", "no-cache");
   ("Connection", "keep-alive"); ("X-Accel-Buffering", "no")].

(** The synchronous part of the [http.createServer] callback, with the
    [clients] map before and after. *)
Definition route (w : World) (clients : Server.clients_map) (req : Request)
  : served * Server.clients_map :=
  if path_is req "/.well-known/mcp" then
    (Ended 200 json_content_type (Some (JsonBody (sse_discovery req))), clients)
  else if path_is req "/" then
    (Ended 200 json_content_type (Some (JsonBody (sse_health w))), clients)
  else if path_is req "/sse" && String.eqb (req_method req) "GET" then
    let cid := query_cid (cid_values req) in
    if String.eqb cid "" then
      (Ended 400 [] (Some (TextBody "cid required")), clients)
    else
      (EventStream stream_headers ("open", JObj [("ok", JBool true)]) None,
       clients_set clients cid (Server.mkClient true))
  else if path_is req "/sse" && String.eqb (req_method req) "POST" then
    let cid := query_cid (cid_values req) in
    if String.eqb cid "" || negb (Server.clients_has clients cid) then
      (Ended 400 [] (Some (TextBody "invalid cid")), clients)
    else (ReadingBody cid, clients)
  else (Ended 404 [] None, clients).

(** [req.on("close", ...)] of an event stream opened with [cid]. *)
Definition on_close (clients : Server.clients_map) (cid : string)
  : Server.clients_map :=
  clients_delete clients cid.

(** [req.on("end", ...)] of an accepted POST, with the reply it ends in:
    [Server.sse_post_end] together with the headers given to [writeHead]. *)
Definition post_end (clients : Server.clients_map) (cid raw : string) : M served :=
  try_catch
    (msg <- parse raw ;;
     Server.handleRpcMessage msg (Server.sse_responder (Server.clients_get clients cid)) ;;;
     emit (HttpReply 200 (JsonBody (JObj [("ok", JBool true)]))) ;;;
     ret (Ended 200 json_content_type (Some (JsonBody (JObj [("ok", JBool true)])))))
    (fun _ =>
       emit (HttpReply 400 (TextBody "bad json")) ;;;
       ret (Ended 400 [("Content-Type", "text/plain")] (Some (TextBody "bad json")))).

End ServerHttp.

(** *** The revision with CORS and keep-alive *)

Module ServerCorsHttp.

Definition clients_delete (clients : ServerCors.clients_map) (cid : string)
  : ServerCors.clients_map :=
  filter (fun c => negb (String.eqb cid c)) clients.

Definition clients_set (clients : ServerCors.clients_map) (cid : string)
  : ServerCors.clients_map :=
  cid :: clients_delete clients cid.

(** The four [res.setHeader] calls made for every request. *)
Definition cors_headers : list (string * string) :=
  [("Access-Control-Allow-Origin", "*");
   ("Access-Control-Allow-Methods", "GET,POST,OPTIONS");
   ("Access-Control-Allow-Headers", "Content-Type, Authorization, Accept");
   ("Access-Control-Max-Age", "600")].

Definition stream_headers : list (string * string) :=
  [("Content-Type", "text/event-stream"); ("Cache-Control", "no-cache");
   ("Connection", "keep-alive"); ("X-Accel-Buffering", "no");
   ("Access-Control-Allow-Origin", "*")].

(** The synchronous part of the callback; the headers of a reply are those
    set by [setHeader] followed by those given to [writeHead]. *)
Definition route (w : World) (clients : ServerCors.clients_map) (req : Request)
  : served * ServerCors.clients_map :=
  if String.eqb (req_method req) "OPTIONS" then
    (Ended 204 cors_headers None, clients)
  else if path_is req "/.well-known/mcp" then
    (Ended 200 (cors_headers ++ json_content_type)%list
       (Some (JsonBody (sse_discovery req))), clients)
  else if path_is req "/" then
    (Ended 200 (cors_headers ++ json_content_type)%list
       (Some (JsonBody (sse_health w))), clients)
  else if path_is req "/sse" && String.eqb (req_method req) "GET" then
    let cid := query_cid (cid_values req) in
    if String.eqb cid "" then
      (Ended 400 cors_headers (Some (TextBody "cid required")), clients)
    else
      (EventStream (cors_headers ++ stream_headers)%list
         ("open", JObj [("ok", JBool true)]) (Some 15000%N),
       clients_set clients cid)
  else if path_is req "/sse" && String.eqb (req_method req) "POST" then
    let cid := query_cid (cid_values req) in
    if String.eqb cid "" || negb (ServerCors.clients_has clients cid) then
      (Ended 400 cors_headers (Some (TextBody "invalid cid")), clients)
    else (ReadingBody cid, clients)
  else (Ended 404 cors_headers None, clients).

(** [req.on("close", ...)]; the keep-alive timer is cleared as well. *)
Definition on_close (clients : ServerCors.clients_map) (cid : string)
  : ServerCors.clients_map :=
  clients_delete clients cid.

(** [req.on("end", ...)] of an accepted POST, with the reply it ends in:
    [ServerCors.sse_post_end] together with the headers of the reply, those
    set by [setHeader] when the request arrived followed by those given to
    [writeHead]. *)
Definition post_end (raw : string) : M served :=
  try_catch
    (msg <- parse raw ;;
     ServerCors.handleRpcMessage msg
       (fun obj => emit (SseWrite "message" (JSON_stringify obj))) ;;;
     emit (HttpReply 200 (JsonBody (JObj [("ok", JBool true)]))) ;;;
     ret (Ended 200 (cors_headers ++ json_content_type)%list
            (Some (JsonBody (JObj [("ok", JBool true)])))))
    (fun _ =>
       emit (HttpReply 400 (TextBody "bad json")) ;;;
       ret (Ended 400 (cors_headers ++ [("Content-Type", "text/plain")])%list
              (Some (TextBody "bad json")))).

End ServerCorsHttp.

(** ** The WebSocket-only programs *)

(** *** Second program of src/server.js *)

Module WsGateway.

Definition toolSpec : json := Lite.toolSpec.

(** [send(ws, obj)] *)
Definition send (obj : object_literal) : M unit :=
  emit (WsSend (JSON_stringify obj)).

(** The body of [ws.on("message", ...)] once [reqMsg] has been decoded. *)
Definition dispatch (reqMsg : json) : M unit :=
  id <- member reqMsg "id" ;;
  method <- member reqMsg "method" ;;
  if is_str method "initialize" then
    send (result_response id (JObj [
      ("protocolVersion", JStr PROTOCOL_VERSION);
      ("serverInfo", JObj [("name", JStr SERVER_NAME); ("version", JStr SERVER_VERSION)]);
      ("capabilities", JObj [("tools", JObj [])])]))
  else if is_str method "ping" then
    send (result_response id (JObj [("ok", JBool true)]))
  else if is_str method "resources/list" then
    send (result_response id (JObj [("resources", JArr [])]))
  else if is_str method "prompts/list" then
    send (result_response id (JObj [("prompts", JArr [])]))
  else if is_str method "tools/list" then
    send (result_response id (JObj [("tools", JArr [toolSpec])]))
  else if is_str method "tools/call" then
    params <- member reqMsg "params" ;;
    let name := get (or_empty params) "name" in
    let args := get (or_empty params) "arguments" in
    if negb (is_str name "qdrant_search") then
      send (error_response id (-32601) "Unknown tool")
    else
      try_catch
        (base <- env_FASTAPI_URL ;;
         r <- await_fetch (base ++ "/query") (request_body args) ;;
         if negb (ok r) then
           errTxt <- lift (text r) ;;
           send (result_response id
             (text_error_result ("FastAPI " ++ decimal (status r) ++ ": " ++ errTxt)))
         else
           data <- lift (json_body r) ;;
           send (result_response id (json_result data)))
        (fun e =>
           send (result_response id
             (text_error_result ("Gateway error: " ++ String_of e))))
  else
    send (error_response id (-32601) "Method not found").

Definition ws_on_message (buf : string) : M unit :=
  decoded <- try_catch (msg <- parse buf ;; ret (Some msg)) (fun _ => ret None) ;;
  match decoded with
  | None => ret tt
  | Some reqMsg => dispatch reqMsg
  end.

(** The [http.createServer] callback: discovery, health, 404. *)
Definition route (w : World) (req : Request) : served :=
  if path_is req "/.well-known/mcp" then
    Ended 200 json_content_type (Some (JsonBody (websocket_discovery req)))
  else if path_is req "/" then
    Ended 200 json_content_type
      (Some (JsonBody (JObj [("ok", JBool true); ("docs", JStr "/.well-known/mcp");
                             ("ws", JStr "/mcp"); ("fastapi", JStr (FASTAPI_URL w))])))
  else Ended 404 [] None.

End WsGateway.

(** *** First program of src/unnamed/part_001 *)

Module WsGatewayBasic.

Definition toolSpec : json := Lite.toolSpec.

Definition ws_send (obj : object_literal) : M unit :=
  emit (WsSend (JSON_stringify obj)).

(** As in the lite gateway, [req.id] is read where each literal is built. *)
Definition dispatch (req : json) : M unit :=
  method <- member req "method" ;;
  id <- member req "id" ;;
  if is_str method "initialize" then
    ws_send (result_response id (JObj [
      ("protocolVersion", JStr PROTOCOL_VERSION);
      ("capabilities", JObj [])]))
  else if is_str method "tools/list" then
    ws_send (result_response id (JObj [("tools", JArr [toolSpec])]))
  else if is_str method "tools/call" then
    params <- member req "params" ;;
    let name := get (or_empty params) "name" in
    let args := get (or_empty params) "arguments" in
    if negb (is_str name "qdrant_search") then
      ws_send (error_response id (-32601) "Unknown tool")
    else
      try_catch
        (base <- env_FASTAPI_URL ;;
         r <- await_fetch (base ++ "/query") (request_body args) ;;
         if negb (ok r) then
           errTxt <- lift (text r) ;;
           ws_send (result_response id
             (text_error_result ("FastAPI " ++ decimal (status r) ++ ": " ++ errTxt)))
         else
           data <- lift (json_body r) ;;
           ws_send (result_response id (json_result data)))
        (fun e =>
           ws_send (result_response id
             (text_error_result ("Gateway error: " ++ String_of e))))
  else
    ws_send (error_response id (-32601) "Method not found").

Definition ws_on_message (buf : string) : M unit :=
  decoded <- try_catch (msg <- parse buf ;; ret (Some msg)) (fun _ => ret None) ;;
  match decoded with
  | None => ret tt
  | Some req => dispatch req
  end.

End WsGatewayBasic.

(** *** Second program of src/unnamed/part_001 *)

Module WsGatewaySnake.

(** The schema is advertised under the snake_case key only. *)
Definition toolSpec : json :=
  JObj [("name", JStr "qdrant_search");
        ("description", JStr tool_description);
        ("input_schema", inputSchema)].

Definition send (obj : object_literal) : M unit :=
  emit (WsSend (JSON_stringify obj)).

Definition dispatch (msg : json) : M unit :=
  id <- destructured msg "msg" "id" ;;
  method <- destructured msg "msg" "method" ;;
  if is_str method "initialize" then
    send (result_response id (JObj [
      ("protocolVersion", JStr PROTOCOL_VERSION);
      ("serverInfo", JObj [("name", JStr SERVER_NAME); ("version", JStr SERVER_VERSION)]);
      ("capabilities", JObj [("tools", JObj [])])]))
  else if is_str method "notifications/initialized" then ret tt
  else if is_str method "ping" then
    send (result_response id (JObj [("ok", JBool true)]))
  else if is_str method "resources/list" then
    send (result_response id (JObj [("resources", JArr [])]))
  else if is_str method "prompts/list" then
    send (result_response id (JObj [("prompts", JArr [])]))
  else if is_str method "tools/list" || is_str method "listTools"
          || is_str method "getTools" then
    send (result_response id (JObj [("tools", JArr [toolSpec])]))
  else if is_str method "tools/call" then
    params <- member msg "params" ;;
    let name := get (or_empty params) "name" in
    let args := get (or_empty params) "arguments" in
    if negb (is_str name "qdrant_search") then
      send (error_response id (-32601) "Unknown tool")
    else
      try_catch
        (base <- env_FASTAPI_URL ;;
         r <- await_fetch (base ++ "/query") (request_body args) ;;
         if negb (ok r) then
           errTxt <- lift (text r) ;;
           send (result_response id
             (text_error_result ("FastAPI " ++ decimal (status r) ++ ": " ++ errTxt)))
         else
           data <- lift (json_body r) ;;
           send (result_response id (json_result data)))
        (fun e =>
           send (result_response id
             (text_error_result ("Gateway error: " ++ String_of e))))
  else
    send (error_response id (-32601) "Method not found").

Definition ws_on_message (buf : string) : M unit :=
  decoded <- try_catch (msg <- parse buf ;; ret (Some msg)) (fun _ => ret None) ;;
  match decoded with
  | None => ret tt
  | Some msg => dispatch msg
  end.

End WsGatewaySnake.

(** ** Vocabulary of the further statements *)

(** The HTTP replies among the events. *)
Definition http_replies (t : list event) : list (N * http_body) :=
  flat_map (fun ev => match ev with HttpReply c b => [(c, b)] | _ => [] end) t.

(** The method names [handleRpcMessage] has a branch for. *)
Definition known_methods : list string :=
  ["initialize"; "notifications/initialized"; "ping"; "resources/list"; "prompts/list";
   "tools/list"; "listTools"; "getTools"; "get_tools"; "list_tools"; "tools/call"].

(** The spellings under which the tool list is served. *)
Definition tool_list_aliases : list string :=
  ["tools/list"; "listTools"; "getTools"; "get_tools"; "list_tools"].

(** [method] is one of the strings of [names]. *)
Definition method_among (names : list string) (method : option json) : bool :=
  existsb (is_str method) names.

(** [JSON.parse(raw)] gives a value, and a value other than [null]. *)
Definition decodes (w : World) (raw : string) : bool :=
  match JSON_parse w raw with
  | Returned _ => true
  | Threw _ => false
  end.

Definition decodes_to_non_null (w : World) (raw : string) : bool :=
  match JSON_parse w raw with
  | Returned JNull => false
  | Returned _ => true
  | Threw _ => false
  end.

(** [msg] is a tools/call of the registered tool. *)
Definition calls_registered_tool (msg : json) : bool :=
  is_str (get msg "method") "tools/call" && is_str (tool_name msg) "qdrant_search".

(** [req] is a GET of [/sse] with the non-empty client id [cid]. *)
Definition opens_stream (req : Request) (cid : string) : bool :=
  path_is req "/sse" && String.eqb (req_method req) "GET"
  && String.eqb (query_cid (cid_values req)) cid && negb (String.eqb cid "").

(** [req] is a POST of [/sse] with the client id [cid]. *)
Definition posts_to (req : Request) (cid : string) : bool :=
  path_is req "/sse" && String.eqb (req_method req) "POST"
  && String.eqb (query_cid (cid_values req)) cid.

(** A backend that answers 500 with a JSON body, as FastAPI does. *)
Definition world_500_json : World :=
  mkWorld "http://backend" sample_parse
    (fun _ _ => Returned (mkResponse false 500 (Returned "")
                            (Returned (JObj [("detail", JStr "Internal Server Error")])))).

(** Every key of the directory is a non-empty cid and every entry is alive. *)
Definition directory_ok (clients : Server.clients_map) : bool :=
  forallb (fun p => negb (String.eqb (fst p) "") && Server.alive (snd p)) clients.



(** A GET or POST of [/sse] carrying the one [cid] value [cid]. *)
Definition sse_request (meth cid : string) : Request :=
  mkRequest meth (Some "/sse") [cid] None (Some "gateway.example") None.

(** * Properties *)

(** ** Running the monad *)

Lemma bind_ret {A B} (a : A) (k : A -> M B) (w : World) :
  bind (ret a) k w = k a w.
Proof. unfold bind, ret. destruct (k a w). reflexivity. Qed.

Lemma get_some_not_null (root : json) (k : string) (v : json) :
  get root k = Some v -> root <> JNull.
Proof. intros H E. subst. discriminate. Qed.

Lemma member_not_null (root : json) (k : string) :
  root <> JNull -> member root k = ret (get root k).
Proof. destruct root; simpl; intros H; try reflexivity. contradiction. Qed.

Lemma destructured_not_null (root : json) (name k : string) :
  root <> JNull -> destructured root name k = ret (get root k).
Proof. destruct root; simpl; intros H; try reflexivity. contradiction. Qed.

(** What is written is what was given, for a value without a number that
    [JSON.stringify] rewrites. *)
Lemma written_unchanged :
  forall v : json, unchanged_when_written v = true -> written v = v.
Proof.
  fix IH 1. intros [ | b | n | s | items | fields ]; cbn; intros H; try reflexivity.
  - unfold written_number. destruct (classify n); try discriminate; reflexivity.
  - f_equal. induction items as [ | x xs IHxs]; [reflexivity | ].
    cbn in *. apply andb_prop in H as [H1 H2].
    rewrite (IH x H1), (IHxs H2). reflexivity.
  - f_equal. induction fields as [ | [k x] xs IHxs]; [reflexivity | ].
    cbn in *. apply andb_prop in H as [H1 H2].
    rewrite (IH x H1), (IHxs H2). reflexivity.
Qed.

Lemma is_str_true (v : option json) (s : string) :
  is_str v s = true -> v = Some (JStr s).
Proof.
  destruct v as [[]|]; simpl; try discriminate.
  intros H. apply String.eqb_eq in H. now subst.
Qed.

(** ** What a response literal looks like on the wire *)

Lemma id_of_result_response (id : option json) (r : json) :
  get (JSON_stringify (result_response id r)) "id" = option_map written id.
Proof. destruct id; reflexivity. Qed.

Lemma id_of_error_response (id : option json) (code : float) (m : string) :
  get (JSON_stringify (error_response id code m)) "id" = option_map written id.
Proof. destruct id; reflexivity. Qed.

Lemma result_of_result_response (id : option json) (r : json) :
  get (JSON_stringify (result_response id r)) "result" = Some (written r)
  /\ get (JSON_stringify (result_response id r)) "error" = None.
Proof. destruct id; split; reflexivity. Qed.

Lemma error_of_error_response (id : option json) (code : float) (m : string) :
  get (JSON_stringify (error_response id code m)) "error"
    = Some (JObj [("code", written_number code); ("message", JStr m)])
  /\ get (JSON_stringify (error_response id code m)) "result" = None.
Proof. destruct id; split; reflexivity. Qed.

(** ** The backend invocation *)

Lemma invoke_backend_raises (w : World) (id args : option json)
  (responder : object_literal -> M unit) (e : js_error) :
  raises w args e ->
  invoke_backend id args responder w
  = (let (t, r) := responder (result_response id
                     (text_error_result ("Gateway error: " ++ String_of e))) w
     in (backend_call w args :: t, r)).
Proof.
  intros [H | r H Hok Ht | r H Hok Hj];
    unfold invoke_backend, try_catch, bind, env_FASTAPI_URL, await_fetch, lift;
    unfold backend_reply in H; cbn; rewrite H; cbn.
  - destruct (responder _ w); reflexivity.
  - rewrite Hok, Ht; cbn. destruct (responder _ w); reflexivity.
  - rewrite Hok, Hj; cbn. destruct (responder _ w); reflexivity.
Qed.

Lemma invoke_backend_error_status (w : World) (id args : option json)
  (responder : object_literal -> M unit) (r : Response) (errTxt : string) :
  quiet responder ->
  backend_reply w args = Returned r -> ok r = false -> text r = Returned errTxt ->
  invoke_backend id args responder w
  = (backend_call w args
       :: fst (responder (result_response id (text_error_result
                 ("FastAPI " ++ decimal (status r) ++ ": " ++ errTxt))) w),
     Returned tt).
Proof.
  intros Hq H Hok Ht.
  unfold invoke_backend, try_catch, bind, env_FASTAPI_URL, await_fetch, lift.
  unfold backend_reply in H; cbn; rewrite H; cbn. rewrite Hok, Ht; cbn.
  specialize (Hq (result_response id (text_error_result
                    ("FastAPI " ++ decimal (status r) ++ ": " ++ errTxt))) w).
  destruct (responder _ w) as [t o]; cbn in *. subst o. reflexivity.
Qed.

Lemma invoke_backend_success (w : World) (id args : option json)
  (responder : object_literal -> M unit) (r : Response) (data : json) :
  quiet responder ->
  backend_reply w args = Returned r -> ok r = true -> json_body r = Returned data ->
  invoke_backend id args responder w
  = (backend_call w args
       :: fst (responder (result_response id (json_result data)) w),
     Returned tt).
Proof.
  intros Hq H Hok Hj.
  unfold invoke_backend, try_catch, bind, env_FASTAPI_URL, await_fetch, lift.
  unfold backend_reply in H; cbn; rewrite H; cbn. rewrite Hok, Hj; cbn.
  specialize (Hq (result_response id (json_result data)) w).
  destruct (responder _ w) as [t o]; cbn in *. subst o. reflexivity.
Qed.

(** ** Branches of the handlers *)

Ltac enter_server H :=
  unfold Server.handleRpcMessage;
  rewrite ?(destructured_not_null _ _ _ (get_some_not_null _ _ _ H)), ?(member_not_null _ _ (get_some_not_null _ _ _ H));
  rewrite !bind_ret; rewrite ?H;
  cbn [is_str String.eqb Ascii.eqb Bool.eqb orb]; rewrite ?bind_ret.

Lemma server_initialize (msg : json) (responder : object_literal -> M unit) (w : World) :
  get msg "method" = Some (JStr "initialize") ->
  Server.handleRpcMessage msg responder w
  = responder (result_response (get msg "id") initialize_result) w.
Proof. intros H. enter_server H. reflexivity. Qed.

Lemma server_unknown_tool (msg : json) (responder : object_literal -> M unit) (w : World) :
  get msg "method" = Some (JStr "tools/call") ->
  is_str (tool_name msg) "qdrant_search" = false ->
  Server.handleRpcMessage msg responder w
  = responder (error_response (get msg "id") (-32601) "Unknown tool") w.
Proof.
  intros H Hn. enter_server H. unfold tool_name in Hn. rewrite Hn. reflexivity.
Qed.

Lemma server_registered_tool (msg : json) (responder : object_literal -> M unit) (w : World) :
  get msg "method" = Some (JStr "tools/call") ->
  is_str (tool_name msg) "qdrant_search" = true ->
  Server.handleRpcMessage msg responder w
  = invoke_backend (get msg "id") (tool_arguments msg) responder w.
Proof.
  intros H Hn. enter_server H. unfold tool_name in Hn. rewrite Hn. reflexivity.
Qed.

Lemma get_or_empty (msg : json) (k : string) :
  get (or_empty (Some msg)) k = get msg k.
Proof.
  destruct msg as [ | b | n | s | items | fields ]; simpl; try reflexivity.
  - destruct b; reflexivity.
  - destruct (negb _); reflexivity.
  - destruct (negb _); reflexivity.
Qed.

Ltac enter_cors H :=
  unfold ServerCors.handleRpcMessage;
  rewrite !get_or_empty;
  rewrite ?(destructured_not_null _ _ _ (get_some_not_null _ _ _ H)), ?(member_not_null _ _ (get_some_not_null _ _ _ H));
  rewrite ?H;
  cbn [is_str String.eqb Ascii.eqb Bool.eqb orb existsb truthy negb];
  rewrite ?bind_ret.

Lemma cors_initialize (msg : json) (respond : object_literal -> M unit) (w : World) :
  get msg "method" = Some (JStr "initialize") ->
  ServerCors.handleRpcMessage msg respond w
  = respond (result_response (get msg "id") initialize_result) w.
Proof. intros H. enter_cors H. reflexivity. Qed.

Lemma cors_unknown_tool (msg : json) (respond : object_literal -> M unit) (w : World) :
  get msg "method" = Some (JStr "tools/call") ->
  is_str (tool_name msg) "qdrant_search" = false ->
  ServerCors.handleRpcMessage msg respond w
  = respond (error_response (get msg "id") (-32601) "Unknown tool") w.
Proof.
  intros H Hn. enter_cors H. unfold tool_name in Hn. rewrite Hn. reflexivity.
Qed.

Lemma cors_registered_tool (msg : json) (respond : object_literal -> M unit) (w : World) :
  get msg "method" = Some (JStr "tools/call") ->
  is_str (tool_name msg) "qdrant_search" = true ->
  ServerCors.handleRpcMessage msg respond w
  = invoke_backend (get msg "id") (tool_arguments msg) respond w.
Proof.
  intros H Hn. enter_cors H. unfold tool_name in Hn. rewrite Hn. reflexivity.
Qed.

(** The guard of the revised handler: a message whose [method] is missing
    (or otherwise falsy) is dropped without calling the responder. *)
Lemma cors_drops_message_without_method
  (msg : json) (respond : object_literal -> M unit) (w : World) :
  truthy (get msg "method") = false ->
  ServerCors.handleRpcMessage msg respond w = ([], Returned tt).
Proof.
  intros H. unfold ServerCors.handleRpcMessage.
  rewrite !get_or_empty, H. reflexivity.
Qed.

Ltac enter_lite H :=
  unfold Lite.dispatch;
  rewrite ?(destructured_not_null _ _ _ (get_some_not_null _ _ _ H)), ?(member_not_null _ _ (get_some_not_null _ _ _ H));
  rewrite !bind_ret; rewrite ?H;
  cbn [is_str String.eqb Ascii.eqb Bool.eqb orb]; rewrite ?bind_ret.

Lemma lite_initialize (req : json) (w : World) :
  get req "method" = Some (JStr "initialize") ->
  Lite.dispatch req w
  = ([WsSend (JSON_stringify (result_response (get req "id")
        (JObj [("protocolVersion", JStr "2024-05-14"); ("capabilities", JObj [])])))],
     Returned tt).
Proof. intros H. enter_lite H. reflexivity. Qed.

Lemma lite_unknown_tool (req : json) (w : World) :
  get req "method" = Some (JStr "tools/call") ->
  is_str (tool_name req) "qdrant_search" = false ->
  Lite.dispatch req w
  = ([WsSend (JSON_stringify (error_response (get req "id") (-32601) "Unknown tool"))],
     Returned tt).
Proof.
  intros H Hn. enter_lite H. unfold tool_name in Hn. rewrite Hn. reflexivity.
Qed.

(** The lite gateway does not look at the status: whatever it is, a body
    that decodes as JSON is returned as a successful result. *)
Lemma lite_does_not_check_status (req : json) (w : World) (r : Response) (data : json) :
  get req "method" = Some (JStr "tools/call") ->
  is_str (tool_name req) "qdrant_search" = true ->
  backend_reply w (tool_arguments req) = Returned r ->
  json_body r = Returned data ->
  Lite.dispatch req w
  = ([backend_call w (tool_arguments req);
      WsSend (JSON_stringify (result_response (get req "id") (json_result data)))],
     Returned tt).
Proof.
  intros H Hn Hreply Hj. enter_lite H. unfold tool_name in Hn. rewrite Hn.
  unfold backend_reply, tool_arguments in Hreply.
  unfold try_catch, bind, env_FASTAPI_URL, await_fetch, lift, Lite.ws_send, emit.
  cbn. rewrite Hreply. cbn. rewrite Hj. reflexivity.
Qed.

(** A POST to /sse without a known [cid] is refused before the body is read. *)
Lemma sse_post_unknown_cid (w : World) (cid raw : string)
  (clients_on_end : Server.clients_map) :
  Server.sse_post [] clients_on_end cid raw w
  = ([HttpReply 400 (TextBody "invalid cid")], Returned tt)
  /\ ServerCors.sse_post [] cid raw w
     = ([HttpReply 400 (TextBody "invalid cid")], Returned tt).
Proof.
  unfold Server.sse_post, ServerCors.sse_post, Server.clients_has, ServerCors.clients_has.
  cbn. rewrite !orb_true_r. split; reflexivity.
Qed.

(** ** Transports: from the raw input to the handler *)

Lemma sendJSON_quiet : quiet (Server.sendJSON true).
Proof. intros obj w. reflexivity. Qed.

Lemma sse_responder_quiet (stream : option Server.sse_client) :
  quiet (Server.sse_responder stream).
Proof. intros obj w. destruct stream as [[[]]|]; reflexivity. Qed.

Lemma server_ws_decoded (w : World) (buf : string) (msg : json) :
  JSON_parse w buf = Returned msg ->
  Server.ws_on_message buf w = Server.handleRpcMessage msg (Server.sendJSON true) w.
Proof.
  intros H. unfold Server.ws_on_message, bind, try_catch, parse, ret.
  rewrite H. cbn. destruct (Server.handleRpcMessage _ _ w). reflexivity.
Qed.

Lemma cors_ws_decoded (w : World) (buf : string) (msg : json) :
  JSON_parse w buf = Returned msg ->
  ServerCors.ws_on_message buf w
  = ServerCors.handleRpcMessage msg (fun obj => emit (WsSend (JSON_stringify obj))) w.
Proof.
  intros H. unfold ServerCors.ws_on_message, bind, try_catch, parse, ret.
  rewrite H. cbn. destruct (ServerCors.handleRpcMessage _ _ w). reflexivity.
Qed.

Lemma lite_ws_decoded (w : World) (buf : string) (req : json) :
  JSON_parse w buf = Returned req ->
  Lite.ws_on_message buf w = Lite.dispatch req w.
Proof.
  intros H. unfold Lite.ws_on_message, bind, try_catch, parse, ret.
  rewrite H. cbn. destruct (Lite.dispatch _ w). reflexivity.
Qed.

(** ** One response per handled message *)

Lemma quiet_run (responder : object_literal -> M unit) (obj : object_literal) (w : World) :
  quiet responder -> responder obj w = (fst (responder obj w), Returned tt).
Proof.
  intros Hq. specialize (Hq obj w). destruct (responder obj w) as [t o].
  cbn in *. now subst.
Qed.

(** Whatever the backend does, a quiet responder is called exactly once,
    after the one backend call, with a result (never a fault) that carries
    the request's id. *)
Lemma invoke_backend_answers_once (w : World) (id args : option json)
  (responder : object_literal -> M unit) :
  quiet responder ->
  exists result,
    invoke_backend id args responder w
    = (backend_call w args :: fst (responder (result_response id result) w),
       Returned tt).
Proof.
  intros Hq.
  assert (Hraise : forall e, raises w args e ->
    invoke_backend id args responder w
    = (backend_call w args
         :: fst (responder (result_response id
                   (text_error_result ("Gateway error: " ++ String_of e))) w),
       Returned tt)).
  { intros e He. rewrite (invoke_backend_raises _ _ _ _ _ He).
    rewrite (quiet_run responder _ w Hq). reflexivity. }
  destruct (backend_reply w args) as [r | e] eqn:Hreply.
  - destruct (ok r) eqn:Hok.
    + destruct (json_body r) as [data | e] eqn:Hj.
      * eexists. eapply invoke_backend_success; eauto.
      * eexists. apply (Hraise e). eapply raises_json; eauto.
    + destruct (text r) as [errTxt | e] eqn:Ht.
      * eexists. eapply invoke_backend_error_status; eauto.
      * eexists. apply (Hraise e). eapply raises_text; eauto.
  - eexists. apply (Hraise e). now apply raises_fetch.
Qed.

Ltac split_ifs :=
  repeat match goal with
         | |- context [if ?b then _ else _] => destruct b eqn:?
         end.

Lemma server_answers_once (msg : json) (responder : object_literal -> M unit) (w : World) :
  msg <> JNull -> quiet responder ->
  exists pre obj,
    Server.handleRpcMessage msg responder w = ((pre ++ fst (responder obj w))%list, Returned tt)
    /\ responses pre = []
    /\ get (JSON_stringify obj) "id" = option_map written (get msg "id").
Proof.
  intros Hmsg Hq. unfold Server.handleRpcMessage.
  rewrite ?(destructured_not_null _ _ _ Hmsg), ?(member_not_null _ _ Hmsg), !bind_ret.
  destruct (is_str (get msg "method") "tools/call") eqn:Hcall.
  - apply is_str_true in Hcall. rewrite Hcall.
    cbn [is_str String.eqb Ascii.eqb Bool.eqb orb].
    rewrite ?bind_ret.
    destruct (negb _).
    + exists [], (error_response (get msg "id") (-32601) "Unknown tool").
      rewrite (quiet_run responder _ w Hq) at 1.
      split; [reflexivity | split; [reflexivity | apply id_of_error_response]].
    + destruct (invoke_backend_answers_once w (get msg "id")
                  (get (or_empty (get msg "params")) "arguments") responder Hq)
        as [result Hrun].
      exists [backend_call w (get (or_empty (get msg "params")) "arguments")],
             (result_response (get msg "id") result).
      split; [exact Hrun | split; [reflexivity | apply id_of_result_response]].
  - split_ifs;
      match goal with
      | |- context [responder ?o w] =>
          exists [], o; rewrite (quiet_run responder o w Hq) at 1;
          split; [reflexivity | split; [reflexivity | ]]
      end;
      first [apply id_of_result_response | apply id_of_error_response].
Qed.

Lemma cors_answers_at_most_once (msg : json) (respond : object_literal -> M unit) (w : World) :
  quiet respond ->
  ServerCors.handleRpcMessage msg respond w = ([], Returned tt)
  \/ exists pre obj,
       ServerCors.handleRpcMessage msg respond w
       = ((pre ++ fst (respond obj w))%list, Returned tt)
       /\ responses pre = []
       /\ get (JSON_stringify obj) "id" = option_map written (get msg "id").
Proof.
  intros Hq.
  destruct (truthy (get msg "method")) eqn:Hm.
  2: { left. now apply cors_drops_message_without_method. }
  right.
  assert (Hmsg : msg <> JNull) by (intros ->; discriminate).
  unfold ServerCors.handleRpcMessage.
  rewrite !get_or_empty, Hm, !(member_not_null _ _ Hmsg). cbn [negb].
  destruct (is_str (get msg "method") "tools/call") eqn:Hcall.
  - apply is_str_true in Hcall. rewrite Hcall.
    cbn [is_str String.eqb Ascii.eqb Bool.eqb orb existsb].
    rewrite ?bind_ret.
    destruct (negb _).
    + exists [], (error_response (get msg "id") (-32601) "Unknown tool").
      rewrite (quiet_run respond _ w Hq) at 1.
      split; [reflexivity | split; [reflexivity | apply id_of_error_response]].
    + destruct (invoke_backend_answers_once w (get msg "id")
                  (get (or_empty (get msg "params")) "arguments") respond Hq)
        as [result Hrun].
      exists [backend_call w (get (or_empty (get msg "params")) "arguments")],
             (result_response (get msg "id") result).
      split; [exact Hrun | split; [reflexivity | apply id_of_result_response]].
  - split_ifs;
      match goal with
      | |- context [respond ?o w] =>
          exists [], o; rewrite (quiet_run respond o w Hq) at 1;
          split; [reflexivity | split; [reflexivity | ]]
      end;
      first [apply id_of_result_response | apply id_of_error_response].
Qed.

(** The lite gateway's own [try]/[catch]: no status check, the body is
    always decoded as JSON. *)
Lemma lite_answers_once (req : json) (w : World) :
  req <> JNull ->
  exists pre obj,
    Lite.dispatch req w = ((pre ++ [WsSend (JSON_stringify obj)])%list, Returned tt)
    /\ responses pre = []
    /\ get (JSON_stringify obj) "id" = option_map written (get req "id").
Proof.
  intros Hreq. unfold Lite.dispatch.
  rewrite ?(destructured_not_null _ _ _ Hreq), ?(member_not_null _ _ Hreq), !bind_ret.
  destruct (is_str (get req "method") "tools/call") eqn:Hcall.
  - apply is_str_true in Hcall. rewrite Hcall.
    cbn [is_str String.eqb Ascii.eqb Bool.eqb orb].
    rewrite ?bind_ret.
    destruct (negb _).
    + exists [], (error_response (get req "id") (-32601) "Unknown tool").
      split; [reflexivity | split; [reflexivity | apply id_of_error_response]].
    + unfold try_catch, bind, env_FASTAPI_URL, await_fetch, lift, Lite.ws_send, emit.
      cbn.
      destruct (fetch w _ _) as [r | e]; cbn.
      * destruct (json_body r) as [data | e]; cbn.
        -- exists [backend_call w (get (or_empty (get req "params")) "arguments")],
                  (result_response (get req "id") (json_result data)).
           split; [reflexivity | split; [reflexivity | apply id_of_result_response]].
        -- exists [backend_call w (get (or_empty (get req "params")) "arguments")],
                  (result_response (get req "id")
                     (text_error_result ("Gateway error: " ++ String_of e))).
           split; [reflexivity | split; [reflexivity | apply id_of_result_response]].
      * exists [backend_call w (get (or_empty (get req "params")) "arguments")],
               (result_response (get req "id")
                  (text_error_result ("Gateway error: " ++ String_of e))).
        split; [reflexivity | split; [reflexivity | apply id_of_result_response]].
  - split_ifs;
      match goal with
      | |- context [Lite.ws_send ?o w] =>
          exists [], o; split; [reflexivity | split; [reflexivity | ]]
      end;
      first [apply id_of_result_response | apply id_of_error_response].
Qed.

Lemma responses_app (t1 t2 : list event) :
  responses (t1 ++ t2) = (responses t1 ++ responses t2)%list.
Proof. unfold responses. apply flat_map_app. Qed.

(** The SSE handlers add only the HTTP acknowledgement of the POST. *)
Lemma server_sse_decoded (w : World) (clients : Server.clients_map)
  (cid raw : string) (msg : json) :
  JSON_parse w raw = Returned msg ->
  responses (fst (Server.sse_post_end clients cid raw w))
  = responses (fst (Server.handleRpcMessage msg
                      (Server.sse_responder (Server.clients_get clients cid)) w)).
Proof.
  intros H. unfold Server.sse_post_end, bind, try_catch, parse, emit.
  rewrite H. cbn.
  destruct (Server.handleRpcMessage _ _ w) as [t [[] | e]]; cbn;
    rewrite responses_app; cbn; apply app_nil_r.
Qed.

Lemma cors_sse_decoded (w : World) (raw : string) (msg : json) :
  JSON_parse w raw = Returned msg ->
  responses (fst (ServerCors.sse_post_end raw w))
  = responses (fst (ServerCors.handleRpcMessage msg
                      (fun obj => emit (SseWrite "message" (JSON_stringify obj))) w)).
Proof.
  intros H. unfold ServerCors.sse_post_end, bind, try_catch, parse, emit.
  rewrite H. cbn.
  destruct (ServerCors.handleRpcMessage _ _ w) as [t [[] | e]]; cbn;
    rewrite responses_app; cbn; apply app_nil_r.
Qed.

(** ** C1: correlation *)

Lemma sendJSON_faithful : faithful (Server.sendJSON true).
Proof. intros obj w resp [H | []]. now symmetry. Qed.

Lemma sse_responder_faithful (stream : option Server.sse_client) :
  faithful (Server.sse_responder stream).
Proof.
  intros obj w resp. destruct stream as [[[]]|]; cbn; intuition congruence.
Qed.

Lemma ws_send_faithful : faithful (fun obj => emit (WsSend (JSON_stringify obj))).
Proof. intros obj w resp [H | []]. now symmetry. Qed.

Lemma sse_write_faithful :
  faithful (fun obj => emit (SseWrite "message" (JSON_stringify obj))).
Proof. intros obj w resp [H | []]. now symmetry. Qed.

Lemma ws_send_quiet : quiet (fun obj => emit (WsSend (JSON_stringify obj))).
Proof. intros obj w. reflexivity. Qed.

Lemma sse_write_quiet : quiet (fun obj => emit (SseWrite "message" (JSON_stringify obj))).
Proof. intros obj w. reflexivity. Qed.

Lemma single_answer_carries_id (responder : object_literal -> M unit)
  (pre : list event) (obj : object_literal) (w : World) (id : option json) (resp : json) :
  faithful responder -> responses pre = [] ->
  get (JSON_stringify obj) "id" = id ->
  In resp (responses (pre ++ fst (responder obj w))) -> get resp "id" = id.
Proof.
  intros Hf Hpre Hid Hin. rewrite responses_app, Hpre in Hin. cbn in Hin.
  now rewrite (Hf obj w resp Hin).
Qed.

Lemma server_responses_carry_id (msg : json) (responder : object_literal -> M unit)
  (w : World) (resp : json) :
  quiet responder -> faithful responder ->
  In resp (responses (fst (Server.handleRpcMessage msg responder w))) ->
  get resp "id" = option_map written (get msg "id").
Proof.
  intros Hq Hf. destruct msg as [ | b | n | s | items | fields ];
    [ intros [] | .. ];
    match goal with
    | |- In _ (responses (fst (Server.handleRpcMessage ?m _ _))) -> _ =>
        destruct (server_answers_once m responder w ltac:(discriminate) Hq)
          as (pre & obj & Hrun & Hpre & Hid)
    end;
    rewrite Hrun; cbn [fst]; now apply single_answer_carries_id.
Qed.

Lemma cors_responses_carry_id (msg : json) (respond : object_literal -> M unit)
  (w : World) (resp : json) :
  quiet respond -> faithful respond ->
  In resp (responses (fst (ServerCors.handleRpcMessage msg respond w))) ->
  get resp "id" = option_map written (get msg "id").
Proof.
  intros Hq Hf.
  destruct (cors_answers_at_most_once msg respond w Hq)
    as [Hrun | (pre & obj & Hrun & Hpre & Hid)]; rewrite Hrun; cbn [fst].
  - intros [].
  - now apply single_answer_carries_id.
Qed.

Lemma lite_responses_carry_id (req : json) (w : World) (resp : json) :
  In resp (responses (fst (Lite.dispatch req w))) -> get resp "id" = option_map written (get req "id").
Proof.
  destruct req as [ | b | n | s | items | fields ];
    [ intros [] | .. ];
    match goal with
    | |- In _ (responses (fst (Lite.dispatch ?m _))) -> _ =>
        destruct (lite_answers_once m w ltac:(discriminate))
          as (pre & obj & Hrun & Hpre & Hid)
    end;
    rewrite Hrun; cbn [fst]; rewrite responses_app, Hpre; cbn;
    intros [H | []]; now subst resp.
Qed.

(** The id [1e999] of a ping comes back as [null]. *)
Lemma C1_counterexample :
  JSON_parse world_1e999 raw_ping_1e999 = Returned msg_ping_1e999
  /\ get msg_ping_1e999 "id" = Some (JNum infinity)
  /\ Server.ws_on_message raw_ping_1e999 world_1e999
     = ([WsSend (JObj [("jsonrpc", JStr "2.0"); ("id", JNull);
                       ("result", JObj [("ok", JBool true)])])],
        Returned tt)
  /\ get (JObj [("jsonrpc", JStr "2.0"); ("id", JNull);
                ("result", JObj [("ok", JBool true)])]) "id"
     <> get msg_ping_1e999 "id".
Proof. repeat split. discriminate. Qed.

(** C1, amended.  On either transport of the gateway, and in each of its
    variants, every protocol response emitted for a decoded message carries
    that message's [id] as [JSON.stringify] writes it: the [id] member of the
    response is missing exactly when the message has none, and it is the
    message's [id] itself whenever that holds no number that is not finite
    and no [-0] (a number that is not finite is written [null], [-0] is
    written [0]). *)
Theorem C1_response_id_is_written_request_id :
  forall (w : World) (buf : string) (msg : json)
         (clients : Server.clients_map) (cid : string) (resp : json),
    JSON_parse w buf = Returned msg ->
    (In resp (responses (fst (Server.ws_on_message buf w))) ->
       get resp "id" = option_map written (get msg "id"))
    /\ (In resp (responses (fst (Server.sse_post_end clients cid buf w))) ->
       get resp "id" = option_map written (get msg "id"))
    /\ (In resp (responses (fst (ServerCors.ws_on_message buf w))) ->
       get resp "id" = option_map written (get msg "id"))
    /\ (In resp (responses (fst (ServerCors.sse_post_end buf w))) ->
       get resp "id" = option_map written (get msg "id"))
    /\ (In resp (responses (fst (Lite.ws_on_message buf w))) ->
       get resp "id" = option_map written (get msg "id"))
    /\ (option_map written (get msg "id") = None <-> get msg "id" = None)
    /\ (forall v, get msg "id" = Some v -> unchanged_when_written v = true ->
        option_map written (get msg "id") = get msg "id").
Proof.
  intros w buf msg clients cid resp Hparse.
  split; [ | split; [ | split; [ | split; [ | split; [ | split]]]]].
  - rewrite (server_ws_decoded _ _ _ Hparse).
    apply server_responses_carry_id; [apply sendJSON_quiet | apply sendJSON_faithful].
  - rewrite (server_sse_decoded _ _ _ _ _ Hparse).
    apply server_responses_carry_id;
      [apply sse_responder_quiet | apply sse_responder_faithful].
  - rewrite (cors_ws_decoded _ _ _ Hparse).
    apply cors_responses_carry_id; [apply ws_send_quiet | apply ws_send_faithful].
  - rewrite (cors_sse_decoded _ _ _ Hparse).
    apply cors_responses_carry_id; [apply sse_write_quiet | apply sse_write_faithful].
  - rewrite (lite_ws_decoded _ _ _ Hparse). apply lite_responses_carry_id.
  - destruct (get msg "id"); cbn; split; intros H; try discriminate; reflexivity.
  - intros v Hv Hu. rewrite Hv. cbn. now rewrite (written_unchanged v Hu).
Qed.

Lemma C1_witness :
  JSON_parse world_ok raw_initialize = Returned msg_initialize
  /\ get msg_initialize "id" = Some (JNum 1)
  /\ unchanged_when_written (JNum 1) = true
  /\ get (JSON_stringify (result_response (Some (JNum 1)) initialize_result)) "id"
     = get msg_initialize "id".
Proof.
  split; [reflexivity | split; [reflexivity | split; [reflexivity | ]]].
  destruct (C1_response_id_is_written_request_id world_ok raw_initialize msg_initialize
              [] "" (JSON_stringify (result_response (Some (JNum 1)) initialize_result))
              eq_refl) as (Hws & _ & _ & _ & _ & _ & Hsame).
  rewrite <- (Hsame (JNum 1) eq_refl eq_refl).
  apply Hws. vm_compute. left. reflexivity.
Defined.

(** ** C2: undecodable input *)

(** C2.  When [JSON.parse] throws on the inbound text, no protocol response
    is emitted on either transport: the WebSocket handlers return without
    sending a frame, and the SSE POST handlers write nothing to the event
    stream (their only effect is the HTTP status 400 of the POST itself). *)
Theorem C2_undecodable_input_gets_no_response :
  forall (w : World) (raw : string) (e : js_error)
         (clients : Server.clients_map) (cid : string),
    JSON_parse w raw = Threw e ->
    Server.ws_on_message raw w = ([], Returned tt)
    /\ Server.sse_post_end clients cid raw w
       = ([HttpReply 400 (TextBody "bad json")], Returned tt)
    /\ responses (fst (Server.sse_post_end clients cid raw w)) = []
    /\ ServerCors.ws_on_message raw w = ([], Returned tt)
    /\ ServerCors.sse_post_end raw w
       = ([HttpReply 400 (TextBody "bad json")], Returned tt)
    /\ responses (fst (ServerCors.sse_post_end raw w)) = []
    /\ Lite.ws_on_message raw w = ([], Returned tt).
Proof.
  intros w raw e clients cid H.
  unfold Server.ws_on_message, Server.sse_post_end, ServerCors.ws_on_message,
    ServerCors.sse_post_end, Lite.ws_on_message, bind, try_catch, parse, ret, emit.
  rewrite H. cbn. repeat split; reflexivity.
Qed.

Lemma C2_witness :
  JSON_parse world_ok "{oops" = Threw (Thrown "SyntaxError: Unexpected token")
  /\ Server.ws_on_message "{oops" world_ok = ([], Returned tt)
  /\ responses (fst (ServerCors.sse_post_end "{oops" world_ok)) = [].
Proof.
  split; [reflexivity | ].
  pose proof (C2_undecodable_input_gets_no_response world_ok "{oops"
                (Thrown "SyntaxError: Unexpected token") [] "" eq_refl) as H.
  split; [apply H | apply H].
Defined.

(** ** C3: a raising backend step *)

(** C3.  For a tools/call of [qdrant_search], when a step of the backend
    invocation raises [e] (the request fails, or the reply's body cannot be
    read or decoded), the handler does not throw: it calls the responder once,
    after the backend call, with a result (not a fault) whose [isError] is
    true and whose content is one text part, "Gateway error: " followed by
    [String(e)]. *)
Theorem C3_backend_exception_becomes_tool_error :
  forall (msg : json) (responder : object_literal -> M unit) (w : World) (e : js_error),
    get msg "method" = Some (JStr "tools/call") ->
    is_str (tool_name msg) "qdrant_search" = true ->
    raises w (tool_arguments msg) e ->
    Server.handleRpcMessage msg responder w
    = (let (t, r) := responder (result_response (get msg "id")
                       (text_error_result ("Gateway error: " ++ String_of e))) w
       in (backend_call w (tool_arguments msg) :: t, r))
    /\ ServerCors.handleRpcMessage msg responder w
       = Server.handleRpcMessage msg responder w
    /\ Server.handleRpcMessage msg (Server.sendJSON true) w
       = ([backend_call w (tool_arguments msg);
           WsSend (JSON_stringify (result_response (get msg "id")
                     (text_error_result ("Gateway error: " ++ String_of e))))],
          Returned tt)
    /\ get (JSON_stringify (result_response (get msg "id")
              (text_error_result ("Gateway error: " ++ String_of e)))) "error" = None
    /\ get (JSON_stringify (result_response (get msg "id")
              (text_error_result ("Gateway error: " ++ String_of e)))) "result"
       = Some (JObj [("content", JArr [JObj [("type", JStr "text");
                                             ("text", JStr ("Gateway error: " ++ String_of e))]]);
                     ("isError", JBool true)]).
Proof.
  intros msg responder w e Hm Hn He.
  assert (Hrun : forall r, Server.handleRpcMessage msg r w
            = (let (t, o) := r (result_response (get msg "id")
                                 (text_error_result ("Gateway error: " ++ String_of e))) w
               in (backend_call w (tool_arguments msg) :: t, o))).
  { intros r. rewrite (server_registered_tool _ _ _ Hm Hn).
    now apply invoke_backend_raises. }
  split; [apply Hrun | ].
  split; [rewrite (cors_registered_tool _ _ _ Hm Hn),
            (server_registered_tool _ _ _ Hm Hn); reflexivity | ].
  split; [rewrite Hrun; reflexivity | ].
  apply and_comm, result_of_result_response.
Qed.

Lemma C3_witness :
  get msg_search "method" = Some (JStr "tools/call")
  /\ is_str (tool_name msg_search) "qdrant_search" = true
  /\ raises world_down (tool_arguments msg_search) (Thrown "FetchError: connect ECONNREFUSED")
  /\ frames (fst (Server.handleRpcMessage msg_search (Server.sendJSON true) world_down))
     = [JSON_stringify (result_response (Some (JNum 2))
          (text_error_result "Gateway error: FetchError: connect ECONNREFUSED"))].
Proof.
  assert (Hraises : raises world_down (tool_arguments msg_search)
                      (Thrown "FetchError: connect ECONNREFUSED"))
    by (apply raises_fetch; reflexivity).
  split; [reflexivity | split; [reflexivity | split; [exact Hraises | ]]].
  destruct (C3_backend_exception_becomes_tool_error msg_search (Server.sendJSON true)
              world_down (Thrown "FetchError: connect ECONNREFUSED")
              eq_refl eq_refl Hraises) as (_ & _ & Hws & _).
  rewrite Hws. reflexivity.
Defined.

(** ** C4: a non-success status *)

(** The text of the tool error at status 500 with body [oops] is
    "FastAPI 500: oops", not "500: oops". *)
Lemma C4_counterexample :
  backend_reply world_500 (tool_arguments msg_search)
  = Returned (mkResponse false 500 (Returned "oops")
                (Threw (Thrown "SyntaxError: Unexpected token o")))
  /\ frames (fst (Server.handleRpcMessage msg_search (Server.sendJSON true) world_500))
     = [JSON_stringify (result_response (Some (JNum 2))
                          (text_error_result "FastAPI 500: oops"))]
  /\ frames (fst (Server.handleRpcMessage msg_search (Server.sendJSON true) world_500))
     <> [JSON_stringify (result_response (Some (JNum 2))
                          (text_error_result "500: oops"))].
Proof.
  split; [reflexivity | split; [reflexivity | ]].
  vm_compute. discriminate.
Qed.

(** C4, amended.  For a tools/call of [qdrant_search] handled by
    [handleRpcMessage], when the backend answers with a non-success status
    and a textual body, the result has [isError] true and exactly one text
    part whose text is "FastAPI <status>: <body>"; that text contains the
    status code. *)
Theorem C4_error_status_becomes_tool_error :
  forall (msg : json) (responder : object_literal -> M unit) (w : World)
         (r : Response) (errTxt : string),
    quiet responder ->
    get msg "method" = Some (JStr "tools/call") ->
    is_str (tool_name msg) "qdrant_search" = true ->
    backend_reply w (tool_arguments msg) = Returned r ->
    ok r = false ->
    text r = Returned errTxt ->
    Server.handleRpcMessage msg responder w
    = (backend_call w (tool_arguments msg)
         :: fst (responder (result_response (get msg "id")
                   (text_error_result ("FastAPI " ++ decimal (status r) ++ ": " ++ errTxt))) w),
       Returned tt)
    /\ ServerCors.handleRpcMessage msg responder w
       = Server.handleRpcMessage msg responder w
    /\ get (JSON_stringify (result_response (get msg "id")
              (text_error_result ("FastAPI " ++ decimal (status r) ++ ": " ++ errTxt))))
           "result"
       = Some (JObj [("content", JArr [JObj [
                        ("type", JStr "text");
                        ("text", JStr ("FastAPI " ++ decimal (status r) ++ ": " ++ errTxt))]]);
                     ("isError", JBool true)])
    /\ (exists before after : string,
          "FastAPI " ++ decimal (status r) ++ ": " ++ errTxt
          = before ++ decimal (status r) ++ after).
Proof.
  intros msg responder w r errTxt Hq Hm Hn Hreply Hok Htext.
  split; [rewrite (server_registered_tool _ _ _ Hm Hn);
          now apply invoke_backend_error_status | ].
  split; [rewrite (cors_registered_tool _ _ _ Hm Hn),
            (server_registered_tool _ _ _ Hm Hn); reflexivity | ].
  split; [apply result_of_result_response | ].
  exists "FastAPI ", (": " ++ errTxt). reflexivity.
Qed.

Lemma C4_witness :
  quiet (Server.sendJSON true)
  /\ get msg_search "method" = Some (JStr "tools/call")
  /\ is_str (tool_name msg_search) "qdrant_search" = true
  /\ Server.handleRpcMessage msg_search (Server.sendJSON true) world_500
     = ([backend_call world_500 (tool_arguments msg_search);
         WsSend (JSON_stringify (result_response (Some (JNum 2))
                   (text_error_result "FastAPI 500: oops")))],
        Returned tt).
Proof.
  split; [exact sendJSON_quiet | ].
  split; [reflexivity | split; [reflexivity | ]].
  destruct (C4_error_status_becomes_tool_error msg_search (Server.sendJSON true) world_500
              (mkResponse false 500 (Returned "oops")
                 (Threw (Thrown "SyntaxError: Unexpected token o")))
              "oops" sendJSON_quiet eq_refl eq_refl eq_refl eq_refl eq_refl)
    as [Hrun _].
  rewrite Hrun. reflexivity.
Defined.

(** ** C5: a success reply *)

(** C5.  For a tools/call of [qdrant_search], when the backend answers
    success with a JSON body [data], the handler calls the responder once,
    with a response whose result has [isError] false and whose content is
    exactly one part of type "json" whose [data] is that body; the response
    has no [error].  In the frame the result is that ToolResult as
    [JSON.stringify] writes it. *)
Theorem C5_success_becomes_json_result :
  forall (msg : json) (responder : object_literal -> M unit) (w : World)
         (r : Response) (data : json),
    quiet responder ->
    get msg "method" = Some (JStr "tools/call") ->
    is_str (tool_name msg) "qdrant_search" = true ->
    backend_reply w (tool_arguments msg) = Returned r ->
    ok r = true ->
    json_body r = Returned data ->
    Server.handleRpcMessage msg responder w
    = (backend_call w (tool_arguments msg)
         :: fst (responder (result_response (get msg "id") (json_result data)) w),
       Returned tt)
    /\ ServerCors.handleRpcMessage msg responder w
       = Server.handleRpcMessage msg responder w
    /\ property (result_response (get msg "id") (json_result data)) "result"
       = Some (JObj [("content", JArr [JObj [("type", JStr "json"); ("data", data)]]);
                     ("isError", JBool false)])
    /\ property (result_response (get msg "id") (json_result data)) "error" = None
    /\ get (JSON_stringify (result_response (get msg "id") (json_result data))) "result"
       = Some (JObj [("content", JArr [JObj [("type", JStr "json");
                                             ("data", written data)]]);
                     ("isError", JBool false)])
    /\ get (JSON_stringify (result_response (get msg "id") (json_result data))) "error"
       = None.
Proof.
  intros msg responder w r data Hq Hm Hn Hreply Hok Hjson.
  split; [rewrite (server_registered_tool _ _ _ Hm Hn);
          now apply (invoke_backend_success _ _ _ _ r data) | ].
  split; [rewrite (cors_registered_tool _ _ _ Hm Hn),
            (server_registered_tool _ _ _ Hm Hn); reflexivity | ].
  split; [reflexivity | split; [reflexivity | ]].
  apply (result_of_result_response (get msg "id") (json_result data)).
Qed.

Lemma C5_witness :
  quiet (Server.sendJSON true)
  /\ get msg_search "method" = Some (JStr "tools/call")
  /\ is_str (tool_name msg_search) "qdrant_search" = true
  /\ Server.handleRpcMessage msg_search (Server.sendJSON true) world_ok
     = ([backend_call world_ok (tool_arguments msg_search);
         WsSend (JSON_stringify (result_response (Some (JNum 2)) (json_result snippets)))],
        Returned tt).
Proof.
  split; [exact sendJSON_quiet | ].
  split; [reflexivity | split; [reflexivity | ]].
  destruct (C5_success_becomes_json_result msg_search (Server.sendJSON true) world_ok
              (mkResponse true 200 (Returned "") (Returned snippets))
              snippets sendJSON_quiet eq_refl eq_refl eq_refl eq_refl eq_refl)
    as [Hrun _].
  rewrite Hrun. reflexivity.
Defined.

(** ** C6: an unknown tool *)

(** C6.  A tools/call whose [params.name] is missing or is not the string
    "qdrant_search" is answered with a fault of code -32601 and no result,
    and the backend is not called: all the handler does is call the responder
    with that fault. *)
Theorem C6_unknown_tool_is_fault :
  forall (msg : json) (responder : object_literal -> M unit) (w : World),
    get msg "method" = Some (JStr "tools/call") ->
    is_str (tool_name msg) "qdrant_search" = false ->
    Server.handleRpcMessage msg responder w
    = responder (error_response (get msg "id") (-32601) "Unknown tool") w
    /\ ServerCors.handleRpcMessage msg responder w
       = responder (error_response (get msg "id") (-32601) "Unknown tool") w
    /\ Lite.dispatch msg w
       = ([WsSend (JSON_stringify (error_response (get msg "id") (-32601) "Unknown tool"))],
          Returned tt)
    /\ backend_calls (fst (Server.handleRpcMessage msg (Server.sendJSON true) w)) = []
    /\ get_opt (get (JSON_stringify (error_response (get msg "id") (-32601) "Unknown tool"))
                    "error") "code"
       = Some (JNum (-32601))
    /\ get (JSON_stringify (error_response (get msg "id") (-32601) "Unknown tool")) "result"
       = None.
Proof.
  intros msg responder w Hm Hn.
  split; [now apply server_unknown_tool | ].
  split; [now apply cors_unknown_tool | ].
  split; [now apply lite_unknown_tool | ].
  split; [rewrite (server_unknown_tool _ _ _ Hm Hn); reflexivity | ].
  destruct (error_of_error_response (get msg "id") (-32601) "Unknown tool") as [He Hr].
  split; [rewrite He; reflexivity | exact Hr].
Qed.

Lemma C6_witness :
  get msg_other_tool "method" = Some (JStr "tools/call")
  /\ is_str (tool_name msg_other_tool) "qdrant_search" = false
  /\ Server.handleRpcMessage msg_other_tool (Server.sendJSON true) world_ok
     = ([WsSend (JSON_stringify (error_response (Some (JNum 3)) (-32601) "Unknown tool"))],
        Returned tt).
Proof.
  split; [reflexivity | split; [reflexivity | ]].
  destruct (C6_unknown_tool_is_fault msg_other_tool (Server.sendJSON true) world_ok
              eq_refl eq_refl) as [Hrun _].
  rewrite Hrun. reflexivity.
Defined.

(** ** C7: the handshake *)

(** The lite gateway answers [initialize] with the protocol version and an
    empty capabilities object: no server identity, no tool capability. *)
Lemma C7_counterexample :
  Lite.dispatch msg_initialize world_ok
  = ([WsSend (JObj [("jsonrpc", JStr "2.0"); ("id", JNum 1);
                    ("result", JObj [("protocolVersion", JStr "2024-05-14");
                                     ("capabilities", JObj [])])])],
     Returned tt)
  /\ get (JObj [("protocolVersion", JStr "2024-05-14"); ("capabilities", JObj [])])
         "serverInfo" = None
  /\ get_opt (get (JObj [("protocolVersion", JStr "2024-05-14"); ("capabilities", JObj [])])
                  "capabilities") "tools" = None.
Proof. repeat split. Qed.

(** C7, amended.  [handleRpcMessage], in both of its revisions, answers
    every [initialize] message with a result, never a fault; the result
    carries the protocol version, the server's name and version, and
    capabilities that declare listing and calling of tools and listing of
    prompts and of resources.  The lite gateway also answers with a result,
    which carries the protocol version and an empty capabilities object. *)
Theorem C7_initialize_always_succeeds :
  forall (msg : json) (responder : object_literal -> M unit) (w : World),
    get msg "method" = Some (JStr "initialize") ->
    Server.handleRpcMessage msg responder w
    = responder (result_response (get msg "id") initialize_result) w
    /\ ServerCors.handleRpcMessage msg responder w
       = responder (result_response (get msg "id") initialize_result) w
    /\ get (JSON_stringify (result_response (get msg "id") initialize_result)) "result"
       = Some initialize_result
    /\ get (JSON_stringify (result_response (get msg "id") initialize_result)) "error"
       = None
    /\ get initialize_result "protocolVersion" = Some (JStr "2024-05-14")
    /\ get initialize_result "serverInfo"
       = Some (JObj [("name", JStr "akasha-mcp"); ("version", JStr "0.1.0")])
    /\ get_opt (get initialize_result "capabilities") "tools"
       = Some (JObj [("list", JBool true); ("call", JBool true)])
    /\ get_opt (get initialize_result "capabilities") "prompts"
       = Some (JObj [("list", JBool true)])
    /\ get_opt (get initialize_result "capabilities") "resources"
       = Some (JObj [("list", JBool true)])
    /\ Lite.dispatch msg w
       = ([WsSend (JSON_stringify (result_response (get msg "id")
            (JObj [("protocolVersion", JStr "2024-05-14"); ("capabilities", JObj [])])))],
          Returned tt).
Proof.
  intros msg responder w Hm.
  split; [now apply server_initialize | ].
  split; [now apply cors_initialize | ].
  destruct (result_of_result_response (get msg "id") initialize_result) as [Hr He].
  split; [exact Hr | split; [exact He | ]].
  repeat (split; [reflexivity | ]).
  now apply lite_initialize.
Qed.

Lemma C7_witness :
  get msg_initialize "method" = Some (JStr "initialize")
  /\ Server.handleRpcMessage msg_initialize (Server.sendJSON true) world_ok
     = ([WsSend (JSON_stringify (result_response (Some (JNum 1)) initialize_result))],
        Returned tt).
Proof.
  split; [reflexivity | ].
  destruct (C7_initialize_always_succeeds msg_initialize (Server.sendJSON true) world_ok
              eq_refl) as [Hrun _].
  rewrite Hrun. reflexivity.
Defined.

(** ** C8: a message without a method *)

(** The revised handler drops a message that has no [method]; the handler of
    src/server.js has no such guard and falls through to its last line. *)
Lemma server_message_without_method
  (msg : json) (responder : object_literal -> M unit) (w : World) :
  msg <> JNull -> get msg "method" = None ->
  Server.handleRpcMessage msg responder w
  = responder (error_response (get msg "id") (-32601) "Method not found") w.
Proof.
  intros Hmsg Hm. unfold Server.handleRpcMessage.
  rewrite ?(destructured_not_null _ _ _ Hmsg), ?(member_not_null _ _ Hmsg), !bind_ret, Hm. reflexivity.
Qed.

(** C8.  The message [{"id":7}] decodes and has no [method].  The revised
    handler (with the [!method] guard) drops it without a response, on both
    transports; the handler of src/server.js answers it with the fault
    "Method not found". *)
Theorem C8_message_without_method :
  JSON_parse world_ok raw_without_method = Returned msg_without_method
  /\ get msg_without_method "method" = None
  /\ ServerCors.ws_on_message raw_without_method world_ok = ([], Returned tt)
  /\ responses (fst (ServerCors.sse_post_end raw_without_method world_ok)) = []
  /\ Server.ws_on_message raw_without_method world_ok
     = ([WsSend (JObj [("jsonrpc", JStr "2.0"); ("id", JNum 7);
                       ("error", JObj [("code", JNum (-32601));
                                       ("message", JStr "Method not found")])])],
        Returned tt).
Proof. repeat split. Qed.

(** ** C9: the request body *)

Lemma nullish_absent (d : json) : nullish None d = d /\ nullish (Some JNull) d = d.
Proof. split; reflexivity. Qed.

Lemma nullish_supplied (v d : json) : v <> JNull -> nullish (Some v) d = v.
Proof. destruct v; simpl; intros H; try reflexivity. contradiction. Qed.

Lemma request_body_fields (args : option json) :
  get (JSON_stringify (request_body args)) "query"
  = option_map written (get_opt args "query")
  /\ get (JSON_stringify (request_body args)) "traditions"
     = option_map written (get_opt args "traditions")
  /\ get (JSON_stringify (request_body args)) "topK"
     = Some (written (nullish (get_opt args "topK") (JNum 6)))
  /\ get (JSON_stringify (request_body args)) "lang"
     = Some (written (nullish (get_opt args "lang") JNull)).
Proof.
  unfold request_body, JSON_stringify.
  destruct (get_opt args "query"), (get_opt args "traditions"); cbn;
    repeat split.
Qed.

Lemma invoke_backend_calls (w : World) (id args : option json)
  (responder : object_literal -> M unit) :
  quiet responder ->
  (forall obj, backend_calls (fst (responder obj w)) = []) ->
  backend_calls (fst (invoke_backend id args responder w))
  = [JSON_stringify (request_body args)].
Proof.
  intros Hq Hnone.
  destruct (invoke_backend_answers_once w id args responder Hq) as [result Hrun].
  rewrite Hrun. cbn. now rewrite Hnone.
Qed.

(** With no [lang] in the arguments the body still has a [lang] member,
    whose value is [null]; and a [topK] of [1e999] reaches the backend as
    [null]. *)
Lemma C9_counterexample :
  get_opt (tool_arguments msg_search) "lang" = None
  /\ backend_calls (fst (Server.handleRpcMessage msg_search (Server.sendJSON true) world_ok))
     = [JObj [("query", JStr "karma"); ("traditions", JStr "buddhism");
              ("topK", JNum 6); ("lang", JNull)]]
  /\ get (JObj [("query", JStr "karma"); ("traditions", JStr "buddhism");
                ("topK", JNum 6); ("lang", JNull)]) "lang" <> None
  /\ get_opt (tool_arguments msg_search_1e999) "topK" = Some (JNum infinity)
  /\ backend_calls
       (fst (Server.handleRpcMessage msg_search_1e999 (Server.sendJSON true) world_ok))
     = [JObj [("query", JStr "karma"); ("traditions", JStr "buddhism");
              ("topK", JNull); ("lang", JNull)]].
Proof.
  split; [reflexivity | split; [reflexivity | split; [discriminate | ]]].
  split; reflexivity.
Qed.

(** C9, amended.  A tools/call of [qdrant_search] sends the backend one body,
    whose members are the supplied values as [JSON.stringify] writes them
    (a value is written as it is unless it holds a number that is not
    finite, written [null], or [-0], written [0]): [query] and [traditions]
    are the supplied values (missing when not supplied); [topK] is the
    supplied value, or 6 when it is missing or [null]; [lang] is the supplied
    value, or an explicit [null] when it is missing or [null]. *)
Theorem C9_request_body_passes_arguments :
  forall (msg : json) (w : World),
    get msg "method" = Some (JStr "tools/call") ->
    is_str (tool_name msg) "qdrant_search" = true ->
    backend_calls (fst (Server.handleRpcMessage msg (Server.sendJSON true) w))
    = [JSON_stringify (request_body (tool_arguments msg))]
    /\ backend_calls (fst (ServerCors.handleRpcMessage msg
                             (fun obj => emit (WsSend (JSON_stringify obj))) w))
       = [JSON_stringify (request_body (tool_arguments msg))]
    /\ get (JSON_stringify (request_body (tool_arguments msg))) "query"
       = option_map written (get_opt (tool_arguments msg) "query")
    /\ get (JSON_stringify (request_body (tool_arguments msg))) "traditions"
       = option_map written (get_opt (tool_arguments msg) "traditions")
    /\ get (JSON_stringify (request_body (tool_arguments msg))) "topK"
       = Some (written (nullish (get_opt (tool_arguments msg) "topK") (JNum 6)))
    /\ get (JSON_stringify (request_body (tool_arguments msg))) "lang"
       = Some (written (nullish (get_opt (tool_arguments msg) "lang") JNull))
    /\ written (JNum 6) = JNum 6
    /\ written JNull = JNull
    /\ (forall v : json, unchanged_when_written v = true -> written v = v).
Proof.
  intros msg w Hm Hn.
  split; [rewrite (server_registered_tool _ _ _ Hm Hn);
          apply invoke_backend_calls; [apply sendJSON_quiet | reflexivity] | ].
  split; [rewrite (cors_registered_tool _ _ _ Hm Hn);
          apply invoke_backend_calls; [apply ws_send_quiet | reflexivity] | ].
  destruct (request_body_fields (tool_arguments msg)) as (Hq & Ht & Hk & Hl).
  split; [exact Hq | split; [exact Ht | split; [exact Hk | split; [exact Hl | ]]]].
  split; [reflexivity | split; [reflexivity | exact written_unchanged]].
Qed.

Lemma C9_witness :
  get msg_search "method" = Some (JStr "tools/call")
  /\ is_str (tool_name msg_search) "qdrant_search" = true
  /\ get (JSON_stringify (request_body (tool_arguments msg_search))) "topK"
     = Some (JNum 6)
  /\ get (JSON_stringify (request_body (tool_arguments msg_search))) "lang"
     = Some JNull.
Proof.
  split; [reflexivity | split; [reflexivity | ]].
  destruct (C9_request_body_passes_arguments msg_search world_ok eq_refl eq_refl)
    as (_ & _ & _ & _ & HtopK & Hlang & _).
  split; [rewrite HtopK | rewrite Hlang]; reflexivity.
Defined.

(** ** C10: a call without params, or without arguments *)

Lemma tool_result_shape (reply : outcome Response) :
  exists (part : json) (isError : bool),
    tool_result reply = JObj [("content", JArr [part]); ("isError", JBool isError)].
Proof.
  unfold tool_result, text_error_result, json_result.
  destruct reply as [r | e]; [ | eauto].
  destruct (ok r); [destruct (json_body r) | destruct (text r)]; eauto.
Qed.

(** The one response of the backend invocation is the ToolResult of the
    backend's reply. *)
Lemma invoke_backend_tool_result (w : World) (id args : option json)
  (responder : object_literal -> M unit) :
  quiet responder ->
  invoke_backend id args responder w
  = (backend_call w args
       :: fst (responder (result_response id (tool_result (backend_reply w args))) w),
     Returned tt).
Proof.
  intros Hq.
  assert (Hraise : forall e, raises w args e ->
    invoke_backend id args responder w
    = (backend_call w args
         :: fst (responder (result_response id
                   (text_error_result ("Gateway error: " ++ String_of e))) w),
       Returned tt)).
  { intros e He. rewrite (invoke_backend_raises _ _ _ _ _ He).
    rewrite (quiet_run responder _ w Hq). reflexivity. }
  unfold tool_result.
  destruct (backend_reply w args) as [r | e] eqn:Hreply.
  - destruct (ok r) eqn:Hok.
    + destruct (json_body r) as [data | e] eqn:Hj.
      * eapply invoke_backend_success; eauto.
      * apply (Hraise e). eapply raises_json; eauto.
    + destruct (text r) as [errTxt | e] eqn:Ht.
      * eapply invoke_backend_error_status; eauto.
      * apply (Hraise e). eapply raises_text; eauto.
  - apply (Hraise e). now apply raises_fetch.
Qed.

(** With [params] present, [name] the registered tool and [arguments]
    missing, the backend is called and the response is a result. *)
Lemma C10_counterexample :
  get msg_call_without_arguments "method" = Some (JStr "tools/call")
  /\ tool_arguments msg_call_without_arguments = None
  /\ Server.handleRpcMessage msg_call_without_arguments (Server.sendJSON true) world_ok
     = ([Fetch "http://backend/query" "POST" "application/json"
           (JObj [("topK", JNum 6); ("lang", JNull)]);
         WsSend (JObj [("jsonrpc", JStr "2.0"); ("id", JNum 5);
                       ("result", json_result snippets)])],
        Returned tt)
  /\ Server.handleRpcMessage msg_call_without_arguments (Server.sendJSON true) world_ok
     <> ([WsSend (JSON_stringify (error_response (Some (JNum 5)) (-32601) "Unknown tool"))],
         Returned tt).
Proof. repeat split. vm_compute. discriminate. Qed.

(** C10, amended.  No tools/call message makes the handler throw, in either
    revision.  When [params] is missing, [name] is missing too, and the
    response is the "Unknown tool" fault of code -32601, with no backend
    call.  When only [arguments] is missing, the outcome follows [name]: the
    same fault when it is not the registered tool; otherwise the backend is
    called once with the body [{topK: 6, lang: null}] and the response is the
    ToolResult of the backend's reply (one content part and [isError]). *)
Theorem C10_call_without_params_or_arguments :
  forall (msg : json) (w : World),
    get msg "method" = Some (JStr "tools/call") ->
    (snd (Server.handleRpcMessage msg (Server.sendJSON true) w) = Returned tt
     /\ snd (ServerCors.handleRpcMessage msg
               (fun obj => emit (WsSend (JSON_stringify obj))) w) = Returned tt)
    /\ (get msg "params" = None ->
        Server.handleRpcMessage msg (Server.sendJSON true) w
        = ([WsSend (JSON_stringify (error_response (get msg "id") (-32601) "Unknown tool"))],
           Returned tt)
        /\ ServerCors.handleRpcMessage msg
             (fun obj => emit (WsSend (JSON_stringify obj))) w
           = ([WsSend (JSON_stringify (error_response (get msg "id") (-32601) "Unknown tool"))],
              Returned tt))
    /\ (tool_arguments msg = None ->
        is_str (tool_name msg) "qdrant_search" = false ->
        Server.handleRpcMessage msg (Server.sendJSON true) w
        = ([WsSend (JSON_stringify (error_response (get msg "id") (-32601) "Unknown tool"))],
           Returned tt)
        /\ ServerCors.handleRpcMessage msg
             (fun obj => emit (WsSend (JSON_stringify obj))) w
           = ([WsSend (JSON_stringify (error_response (get msg "id") (-32601) "Unknown tool"))],
              Returned tt))
    /\ (tool_arguments msg = None ->
        is_str (tool_name msg) "qdrant_search" = true ->
        Server.handleRpcMessage msg (Server.sendJSON true) w
        = ([Fetch (FASTAPI_URL w ++ "/query") "POST" "application/json"
              (JObj [("topK", JNum 6); ("lang", JNull)]);
            WsSend (JSON_stringify (result_response (get msg "id")
                      (tool_result (backend_reply w None))))],
           Returned tt)
        /\ ServerCors.handleRpcMessage msg
             (fun obj => emit (WsSend (JSON_stringify obj))) w
           = ([Fetch (FASTAPI_URL w ++ "/query") "POST" "application/json"
                 (JObj [("topK", JNum 6); ("lang", JNull)]);
               WsSend (JSON_stringify (result_response (get msg "id")
                         (tool_result (backend_reply w None))))],
              Returned tt)
        /\ exists (part : json) (isError : bool),
             tool_result (backend_reply w None)
             = JObj [("content", JArr [part]); ("isError", JBool isError)]).
Proof.
  intros msg w Hm.
  assert (Hfault : is_str (tool_name msg) "qdrant_search" = false ->
    Server.handleRpcMessage msg (Server.sendJSON true) w
    = ([WsSend (JSON_stringify (error_response (get msg "id") (-32601) "Unknown tool"))],
       Returned tt)
    /\ ServerCors.handleRpcMessage msg
         (fun obj => emit (WsSend (JSON_stringify obj))) w
       = ([WsSend (JSON_stringify (error_response (get msg "id") (-32601) "Unknown tool"))],
          Returned tt)).
  { intros Hn.
    rewrite (server_unknown_tool _ _ _ Hm Hn), (cors_unknown_tool _ _ _ Hm Hn).
    split; reflexivity. }
  assert (Hcall : is_str (tool_name msg) "qdrant_search" = true ->
    Server.handleRpcMessage msg (Server.sendJSON true) w
    = ([backend_call w (tool_arguments msg);
        WsSend (JSON_stringify (result_response (get msg "id")
                  (tool_result (backend_reply w (tool_arguments msg)))))],
       Returned tt)
    /\ ServerCors.handleRpcMessage msg
         (fun obj => emit (WsSend (JSON_stringify obj))) w
       = ([backend_call w (tool_arguments msg);
           WsSend (JSON_stringify (result_response (get msg "id")
                     (tool_result (backend_reply w (tool_arguments msg)))))],
          Returned tt)).
  { intros Hn.
    rewrite (server_registered_tool _ _ _ Hm Hn), (cors_registered_tool _ _ _ Hm Hn).
    rewrite (invoke_backend_tool_result _ _ _ _ sendJSON_quiet),
      (invoke_backend_tool_result _ _ _ _ ws_send_quiet).
    split; reflexivity. }
  split; [ | split; [ | split]].
  - destruct (is_str (tool_name msg) "qdrant_search") eqn:Hn.
    + destruct (Hcall eq_refl) as [-> ->]. split; reflexivity.
    + destruct (Hfault eq_refl) as [-> ->]. split; reflexivity.
  - intros Hparams. apply Hfault. unfold tool_name. rewrite Hparams. reflexivity.
  - intros _ Hn. now apply Hfault.
  - intros Hargs Hn. destruct (Hcall Hn) as [Hs Hc].
    rewrite Hs, Hc, Hargs.
    split; [reflexivity | split; [reflexivity | apply tool_result_shape]].
Qed.

Lemma C10_witness :
  get msg_call_without_params "method" = Some (JStr "tools/call")
  /\ get msg_call_without_params "params" = None
  /\ Server.handleRpcMessage msg_call_without_params (Server.sendJSON true) world_ok
     = ([WsSend (JSON_stringify (error_response (Some (JNum 4)) (-32601) "Unknown tool"))],
        Returned tt)
  /\ get msg_call_without_arguments "method" = Some (JStr "tools/call")
  /\ tool_arguments msg_call_without_arguments = None
  /\ is_str (tool_name msg_call_without_arguments) "qdrant_search" = true
  /\ backend_calls
       (fst (Server.handleRpcMessage msg_call_without_arguments (Server.sendJSON true)
               world_down))
     = [JObj [("topK", JNum 6); ("lang", JNull)]].
Proof.
  split; [reflexivity | split; [reflexivity | ]].
  destruct (C10_call_without_params_or_arguments msg_call_without_params world_ok eq_refl)
    as (_ & Hparams & _ & _).
  split; [apply (proj1 (Hparams eq_refl)) | ].
  split; [reflexivity | split; [reflexivity | split; [reflexivity | ]]].
  destruct (C10_call_without_params_or_arguments msg_call_without_arguments world_down
              eq_refl) as (_ & _ & _ & Hargs).
  destruct (Hargs eq_refl eq_refl) as (Hrun & _ & _).
  rewrite Hrun. reflexivity.
Defined.

(** * Further properties *)

(** ** One answer, whoever delivers it *)

Lemma frames_app (t1 t2 : list event) :
  frames (t1 ++ t2) = (frames t1 ++ frames t2)%list.
Proof. unfold frames. apply flat_map_app. Qed.

Lemma backend_calls_app (t1 t2 : list event) :
  backend_calls (t1 ++ t2) = (backend_calls t1 ++ backend_calls t2)%list.
Proof. unfold backend_calls. apply flat_map_app. Qed.

Lemma http_replies_app (t1 t2 : list event) :
  http_replies (t1 ++ t2) = (http_replies t1 ++ http_replies t2)%list.
Proof. unfold http_replies. apply flat_map_app. Qed.

(** The result the backend invocation reports does not depend on the
    responder that delivers it. *)
Lemma invoke_backend_uniform (w : World) (id args : option json) :
  exists result,
    forall responder, quiet responder ->
      invoke_backend id args responder w
      = (backend_call w args :: fst (responder (result_response id result) w),
         Returned tt).
Proof.
  assert (Hraise : forall e, raises w args e ->
    forall responder, quiet responder ->
    invoke_backend id args responder w
    = (backend_call w args
         :: fst (responder (result_response id
                   (text_error_result ("Gateway error: " ++ String_of e))) w),
       Returned tt)).
  { intros e He responder Hq. rewrite (invoke_backend_raises _ _ _ _ _ He).
    rewrite (quiet_run responder _ w Hq). reflexivity. }
  destruct (backend_reply w args) as [r | e] eqn:Hreply.
  - destruct (ok r) eqn:Hok.
    + destruct (json_body r) as [data | e] eqn:Hj.
      * eexists. intros responder Hq. eapply invoke_backend_success; eauto.
      * eexists. apply (Hraise e). eapply raises_json; eauto.
    + destruct (text r) as [errTxt | e] eqn:Ht.
      * eexists. intros responder Hq. eapply invoke_backend_error_status; eauto.
      * eexists. apply (Hraise e). eapply raises_text; eauto.
  - eexists. apply (Hraise e). now apply raises_fetch.
Qed.

(** [handleRpcMessage] of src/server.js, on a message other than [null]:
    at most the one backend call, then one call of the responder; what is
    called with does not depend on the responder. *)
Lemma server_run_uniform (msg : json) (w : World) :
  msg <> JNull ->
  exists pre obj,
    (forall responder, quiet responder ->
       Server.handleRpcMessage msg responder w
       = ((pre ++ fst (responder obj w))%list, Returned tt))
    /\ pre = (if calls_registered_tool msg
              then [backend_call w (tool_arguments msg)] else [])
    /\ get (JSON_stringify obj) "id" = option_map written (get msg "id").
Proof.
  intros Hmsg. unfold calls_registered_tool.
  destruct (is_str (get msg "method") "tools/call") eqn:Hcall; cbn [andb].
  - pose proof (is_str_true _ _ Hcall) as Hm.
    destruct (is_str (tool_name msg) "qdrant_search") eqn:Hn.
    + destruct (invoke_backend_uniform w (get msg "id") (tool_arguments msg))
        as [result Hrun].
      exists [backend_call w (tool_arguments msg)], (result_response (get msg "id") result).
      split; [ | split; [reflexivity | apply id_of_result_response]].
      intros responder Hq. rewrite (server_registered_tool _ _ _ Hm Hn).
      now apply Hrun.
    + exists [], (error_response (get msg "id") (-32601) "Unknown tool").
      split; [ | split; [reflexivity | apply id_of_error_response]].
      intros responder Hq. rewrite (server_unknown_tool _ _ _ Hm Hn).
      apply (quiet_run responder _ w Hq).
  - unfold Server.handleRpcMessage.
    assert (Hbind : forall (k : option json -> M unit) key w',
              bind (member msg key) k w' = k (get msg key) w')
      by (intros; rewrite (member_not_null _ _ Hmsg); apply bind_ret).
    assert (Hbind' : forall (k : option json -> M unit) key w',
              bind (destructured msg "msg" key) k w' = k (get msg key) w')
      by (intros; rewrite (destructured_not_null _ _ _ Hmsg); apply bind_ret).
    destruct (is_str (get msg "method") "initialize") eqn:E1;
    [ | destruct (is_str (get msg "method") "notifications/initialized") eqn:E2;
    [ | destruct (is_str (get msg "method") "ping") eqn:E3;
    [ | destruct (is_str (get msg "method") "resources/list") eqn:E4;
    [ | destruct (is_str (get msg "method") "prompts/list") eqn:E5;
    [ | destruct (is_str (get msg "method") "tools/list"
                  || is_str (get msg "method") "listTools"
                  || is_str (get msg "method") "getTools"
                  || is_str (get msg "method") "get_tools"
                  || is_str (get msg "method") "list_tools") eqn:E6 ]]]]];
    eexists [], _;
    (split; [ intros responder Hq; rewrite ?Hbind', ?Hbind;
              rewrite ?E1, ?E2, ?E3, ?E4, ?E5, ?E6, ?Hcall;
              apply (quiet_run responder _ w Hq)
            | split; [reflexivity
                     | first [apply id_of_result_response | apply id_of_error_response]]]).
Qed.

(** X1.  Over the WebSocket of src/server.js every decoded message other
    than [null] is answered with exactly one frame, which carries the
    message's id as [JSON.stringify] writes it (missing when the message has
    none), and the handler returns; this includes notifications and
    messages without an id or a method. *)
Theorem X1_server_ws_answers_exactly_once :
  forall (w : World) (buf : string) (msg : json),
    JSON_parse w buf = Returned msg -> msg <> JNull ->
    exists resp,
      frames (fst (Server.ws_on_message buf w)) = [resp]
      /\ snd (Server.ws_on_message buf w) = Returned tt
      /\ get resp "id" = option_map written (get msg "id").
Proof.
  intros w buf msg Hparse Hmsg.
  destruct (server_run_uniform msg w Hmsg) as (pre & obj & Hrun & Hpre & Hid).
  exists (JSON_stringify obj).
  rewrite (server_ws_decoded _ _ _ Hparse), (Hrun _ sendJSON_quiet).
  cbn [fst snd]. rewrite frames_app, Hpre.
  repeat split; [ | exact Hid].
  destruct (calls_registered_tool msg); reflexivity.
Qed.

Lemma X1_witness :
  JSON_parse world_ok raw_without_method = Returned msg_without_method
  /\ msg_without_method <> JNull
  /\ exists resp,
       frames (fst (Server.ws_on_message raw_without_method world_ok)) = [resp]
       /\ snd (Server.ws_on_message raw_without_method world_ok) = Returned tt
       /\ get resp "id" = option_map written (get msg_without_method "id").
Proof.
  split; [reflexivity | split; [discriminate | ]].
  apply (X1_server_ws_answers_exactly_once world_ok raw_without_method
           msg_without_method eq_refl).
  discriminate.
Defined.

(** X2.  The backend is called only for a tools/call of the registered tool,
    and then exactly once, with the POST of the arguments' body to
    [FASTAPI_URL/query]: no other method reaches the backend and nothing is
    retried, whatever the backend answers. *)
Theorem X2_backend_called_once_for_registered_tool_only :
  forall (msg : json) (w : World),
    filter (fun ev => match ev with Fetch _ _ _ _ => true | _ => false end)
           (fst (Server.handleRpcMessage msg (Server.sendJSON true) w))
    = (if calls_registered_tool msg
       then [Fetch (FASTAPI_URL w ++ "/query") "POST" "application/json"
               (JSON_stringify (request_body (tool_arguments msg)))]
       else []).
Proof.
  intros msg w.
  destruct msg as [ | b | n | s | items | fields ]; [ reflexivity | .. ];
    match goal with
    | |- context [Server.handleRpcMessage ?m _ _] =>
        destruct (server_run_uniform m w ltac:(discriminate))
          as (pre & obj & Hrun & Hpre & _)
    end;
    rewrite (Hrun _ sendJSON_quiet); cbn [fst]; rewrite filter_app, Hpre;
    match goal with
    | |- context [calls_registered_tool ?m] => destruct (calls_registered_tool m)
    end; reflexivity.
Qed.

(** X3.  The JSON text [null] decodes, but is not an object.  In
    src/server.js the handler throws on it (a [TypeError], whatever its
    text): over the WebSocket nothing is sent and the promise is rejected;
    over SSE the POST is answered 400 "bad json" although the body was valid
    JSON.  The revised handler treats it as a message without a method:
    nothing is sent and the POST is answered 200.  The lite gateway throws as
    well, having sent nothing. *)
Theorem X3_null_message :
  forall (w : World) (raw : string) (clients : Server.clients_map) (cid : string),
    JSON_parse w raw = Returned JNull ->
    (fst (Server.ws_on_message raw w) = []
     /\ exists e, snd (Server.ws_on_message raw w) = Threw e)
    /\ Server.sse_post_end clients cid raw w
       = ([HttpReply 400 (TextBody "bad json")], Returned tt)
    /\ ServerCors.ws_on_message raw w = ([], Returned tt)
    /\ ServerCors.sse_post_end raw w
       = ([HttpReply 200 (JsonBody (JObj [("ok", JBool true)]))], Returned tt)
    /\ (fst (Lite.ws_on_message raw w) = []
        /\ exists e, snd (Lite.ws_on_message raw w) = Threw e).
Proof.
  intros w raw clients cid H.
  unfold Server.ws_on_message, Server.sse_post_end, ServerCors.ws_on_message,
    ServerCors.sse_post_end, Lite.ws_on_message, bind, try_catch, parse, ret, emit.
  rewrite H. cbn.
  split; [split; [reflexivity | eexists; reflexivity] | ].
  split; [reflexivity | split; [reflexivity | split; [reflexivity | ]]].
  split; [reflexivity | eexists; reflexivity].
Qed.

Lemma X3_witness :
  JSON_parse world_ok "null" = Returned JNull
  /\ Server.sse_post_end [] "abc" "null" world_ok
     = ([HttpReply 400 (TextBody "bad json")], Returned tt).
Proof.
  split; [reflexivity | ].
  apply (X3_null_message world_ok "null" [] "abc" eq_refl).
Defined.

(** ** The two revisions of [handleRpcMessage] *)

Lemma truthy_not_null (msg : json) (k : string) :
  truthy (get msg k) = true -> msg <> JNull.
Proof. intros H ->. discriminate. Qed.

Lemma cors_agrees_with_server
  (msg : json) (responder : object_literal -> M unit) (w : World) :
  truthy (get msg "method") = true ->
  ServerCors.handleRpcMessage msg responder w
  = Server.handleRpcMessage msg responder w.
Proof.
  intros Hm.
  pose proof (truthy_not_null _ _ Hm) as Hmsg.
  unfold ServerCors.handleRpcMessage, Server.handleRpcMessage.
  rewrite !get_or_empty, Hm, !(member_not_null _ _ Hmsg),
    !(destructured_not_null _ _ _ Hmsg), !bind_ret.
  cbn [negb existsb].
  destruct (is_str (get msg "method") "tools/list"),
           (is_str (get msg "method") "listTools"),
           (is_str (get msg "method") "getTools"),
           (is_str (get msg "method") "get_tools"),
           (is_str (get msg "method") "list_tools"); reflexivity.
Qed.

(** X6.  The revised [handleRpcMessage] differs from the one of
    src/server.js only by its guard: on every message whose [method] is
    truthy the two make the same backend call and the same call of the
    responder, for any responder; so the two WebSocket handlers do the same
    on every text that decodes to such a message. *)
Theorem X6_revisions_agree_when_method_is_present :
  forall (msg : json) (responder : object_literal -> M unit) (w : World) (buf : string),
    truthy (get msg "method") = true ->
    ServerCors.handleRpcMessage msg responder w
    = Server.handleRpcMessage msg responder w
    /\ (JSON_parse w buf = Returned msg ->
        ServerCors.ws_on_message buf w = Server.ws_on_message buf w).
Proof.
  intros msg responder w buf Hm.
  split; [now apply cors_agrees_with_server | ].
  intros Hparse.
  rewrite (cors_ws_decoded _ _ _ Hparse), (server_ws_decoded _ _ _ Hparse).
  now apply cors_agrees_with_server.
Qed.

Lemma X6_witness :
  truthy (get msg_initialize "method") = true
  /\ JSON_parse world_ok raw_initialize = Returned msg_initialize
  /\ ServerCors.ws_on_message raw_initialize world_ok
     = ([WsSend (JSON_stringify (result_response (Some (JNum 1)) initialize_result))],
        Returned tt).
Proof.
  split; [reflexivity | split; [reflexivity | ]].
  destruct (X6_revisions_agree_when_method_is_present msg_initialize
              (Server.sendJSON true) world_ok raw_initialize eq_refl) as [_ Hws].
  rewrite (Hws eq_refl). reflexivity.
Defined.

Lemma falsy_method_is_no_name (method : option json) (s : string) :
  truthy method = false -> s <> "" -> is_str method s = false.
Proof.
  destruct method as [[ | b | n | s' | items | fields ]|]; cbn; try reflexivity;
    try discriminate.
  intros H Hs. apply negb_false_iff, String.eqb_eq in H. subst s'.
  destruct s; [contradiction | reflexivity].
Qed.

(** X7.  A message other than [null] whose [method] is falsy (missing,
    [null], [false], [0] or the empty string) is answered by src/server.js
    with the fault -32601 "Method not found", carrying the message's id; the
    revised handler does not call the responder at all. *)
Theorem X7_falsy_method :
  forall (msg : json) (responder : object_literal -> M unit) (w : World),
    msg <> JNull ->
    truthy (get msg "method") = false ->
    Server.handleRpcMessage msg responder w
    = responder (error_response (get msg "id") (-32601) "Method not found") w
    /\ ServerCors.handleRpcMessage msg responder w = ([], Returned tt).
Proof.
  intros msg responder w Hmsg Hm.
  split; [ | now apply cors_drops_message_without_method].
  unfold Server.handleRpcMessage.
  rewrite ?(destructured_not_null _ _ _ Hmsg), ?(member_not_null _ _ Hmsg), !bind_ret.
  rewrite !(falsy_method_is_no_name _ _ Hm) by discriminate.
  reflexivity.
Qed.

Lemma X7_witness :
  JObj [("id", JNum 9); ("method", JStr "")] <> JNull
  /\ truthy (get (JObj [("id", JNum 9); ("method", JStr "")]) "method") = false
  /\ Server.handleRpcMessage (JObj [("id", JNum 9); ("method", JStr "")])
       (Server.sendJSON true) world_ok
     = ([WsSend (JSON_stringify (error_response (Some (JNum 9)) (-32601)
                                   "Method not found"))],
        Returned tt).
Proof.
  split; [discriminate | split; [reflexivity | ]].
  destruct (X7_falsy_method (JObj [("id", JNum 9); ("method", JStr "")])
              (Server.sendJSON true) world_ok ltac:(discriminate) eq_refl) as [Hrun _].
  rewrite Hrun. reflexivity.
Defined.

(** The revised handler either drops the message or runs as the handler of
    src/server.js does. *)
Lemma cors_run_uniform (msg : json) (w : World) :
  (truthy (get msg "method") = false
   /\ forall respond, ServerCors.handleRpcMessage msg respond w = ([], Returned tt))
  \/ (truthy (get msg "method") = true
      /\ exists pre obj,
           (forall respond, quiet respond ->
              ServerCors.handleRpcMessage msg respond w
              = ((pre ++ fst (respond obj w))%list, Returned tt))
           /\ pre = (if calls_registered_tool msg
                     then [backend_call w (tool_arguments msg)] else [])
           /\ get (JSON_stringify obj) "id" = option_map written (get msg "id")).
Proof.
  destruct (truthy (get msg "method")) eqn:Hm.
  - right. split; [reflexivity | ].
    destruct (server_run_uniform msg w (truthy_not_null _ _ Hm))
      as (pre & obj & Hrun & Hpre & Hid).
    exists pre, obj. split; [ | now split].
    intros respond Hq.
    rewrite (cors_agrees_with_server _ _ _ Hm). now apply Hrun.
  - left. split; [reflexivity | ].
    intros respond. now apply cors_drops_message_without_method.
Qed.

(** ** The SSE POST handlers *)

Lemma sse_responder_no_reply (stream : option Server.sse_client)
  (obj : object_literal) (w : World) :
  http_replies (fst (Server.sse_responder stream obj w)) = [].
Proof. destruct stream as [[[]]|]; reflexivity. Qed.

Lemma no_reply_before_the_answer (msg : json) (w : World) :
  http_replies (if calls_registered_tool msg
                then [backend_call w (tool_arguments msg)] else []) = [].
Proof. destruct (calls_registered_tool msg); reflexivity. Qed.

Lemma server_sse_post_run (w : World) (clients : Server.clients_map) (cid raw : string) :
  Server.sse_post_end clients cid raw w
  = match JSON_parse w raw with
    | Returned msg =>
        match Server.handleRpcMessage msg
                (Server.sse_responder (Server.clients_get clients cid)) w with
        | (t, Returned _) =>
            ((t ++ [HttpReply 200 (JsonBody (JObj [("ok", JBool true)]))])%list, Returned tt)
        | (t, Threw _) =>
            ((t ++ [HttpReply 400 (TextBody "bad json")])%list, Returned tt)
        end
    | Threw _ => ([HttpReply 400 (TextBody "bad json")], Returned tt)
    end.
Proof.
  unfold Server.sse_post_end, bind, try_catch, parse, emit.
  destruct (JSON_parse w raw) as [msg | e]; [ | reflexivity ].
  cbn. destruct (Server.handleRpcMessage msg _ w) as [t [[] | e]]; reflexivity.
Qed.

Lemma cors_sse_post_run (w : World) (raw : string) :
  ServerCors.sse_post_end raw w
  = match JSON_parse w raw with
    | Returned msg =>
        match ServerCors.handleRpcMessage msg
                (fun obj => emit (SseWrite "message" (JSON_stringify obj))) w with
        | (t, Returned _) =>
            ((t ++ [HttpReply 200 (JsonBody (JObj [("ok", JBool true)]))])%list, Returned tt)
        | (t, Threw _) =>
            ((t ++ [HttpReply 400 (TextBody "bad json")])%list, Returned tt)
        end
    | Threw _ => ([HttpReply 400 (TextBody "bad json")], Returned tt)
    end.
Proof.
  unfold ServerCors.sse_post_end, bind, try_catch, parse, emit.
  destruct (JSON_parse w raw) as [msg | e]; [ | reflexivity ].
  cbn. destruct (ServerCors.handleRpcMessage msg _ w) as [t [[] | e]]; reflexivity.
Qed.

Lemma server_sse_post_answer (w : World) (clients : Server.clients_map) (cid raw : string) :
  snd (Server.sse_post_end clients cid raw w) = Returned tt
  /\ http_replies (fst (Server.sse_post_end clients cid raw w))
     = [if decodes_to_non_null w raw
        then (200%N, JsonBody (JObj [("ok", JBool true)]))
        else (400%N, TextBody "bad json")].
Proof.
  rewrite server_sse_post_run. unfold decodes_to_non_null.
  destruct (JSON_parse w raw) as [msg | e]; [ | now split ].
  destruct msg as [ | b | n | s | items | fields ]; [ now split | .. ];
    match goal with
    | |- context [Server.handleRpcMessage ?m _ _] =>
        destruct (server_run_uniform m w ltac:(discriminate))
          as (pre & obj & Hrun & Hpre & _)
    end;
    rewrite (Hrun _ (sse_responder_quiet _)); cbn [fst snd];
    rewrite !http_replies_app, sse_responder_no_reply, Hpre,
      no_reply_before_the_answer; now split.
Qed.

Lemma cors_sse_post_answer (w : World) (raw : string) :
  snd (ServerCors.sse_post_end raw w) = Returned tt
  /\ http_replies (fst (ServerCors.sse_post_end raw w))
     = [if decodes w raw
        then (200%N, JsonBody (JObj [("ok", JBool true)]))
        else (400%N, TextBody "bad json")].
Proof.
  rewrite cors_sse_post_run. unfold decodes.
  destruct (JSON_parse w raw) as [msg | e]; [ | now split ].
  destruct (cors_run_uniform msg w)
    as [[_ Hrun] | [_ (pre & obj & Hrun & Hpre & _)]].
  - rewrite Hrun. now split.
  - rewrite (Hrun _ sse_write_quiet). cbn [fst snd].
    rewrite !http_replies_app, Hpre, no_reply_before_the_answer. now split.
Qed.

(** X4.  The [end] handler of POST /sse never throws and answers the POST
    exactly once.  In src/server.js the answer is 200 [{ok:true}] when the
    body decodes to a value other than [null], and 400 "bad json" otherwise;
    in the revision it is 200 whenever the body decodes. *)
Theorem X4_sse_post_is_answered_once :
  forall (w : World) (clients : Server.clients_map) (cid raw : string),
    snd (Server.sse_post_end clients cid raw w) = Returned tt
    /\ http_replies (fst (Server.sse_post_end clients cid raw w))
       = [if decodes_to_non_null w raw
          then (200%N, JsonBody (JObj [("ok", JBool true)]))
          else (400%N, TextBody "bad json")]
    /\ snd (ServerCors.sse_post_end raw w) = Returned tt
    /\ http_replies (fst (ServerCors.sse_post_end raw w))
       = [if decodes w raw
          then (200%N, JsonBody (JObj [("ok", JBool true)]))
          else (400%N, TextBody "bad json")].
Proof.
  intros w clients cid raw.
  destruct (server_sse_post_answer w clients cid raw) as [Hs1 Hs2].
  destruct (cors_sse_post_answer w raw) as [Hc1 Hc2].
  repeat split; assumption.
Qed.

(** X5.  In src/server.js the responder of a POST looks the stream up when
    the body has been read.  If the session is gone by then (or its entry is
    not alive), the response is computed and dropped: nothing is written,
    the backend is called as for any other delivery, and the POST is still
    answered 200. *)
Theorem X5_response_dropped_when_stream_is_gone :
  forall (w : World) (clients : Server.clients_map) (cid raw : string) (msg : json),
    JSON_parse w raw = Returned msg -> msg <> JNull ->
    match Server.clients_get clients cid with
    | Some entry => Server.alive entry
    | None => false
    end = false ->
    Server.sse_post_end clients cid raw w
    = ((if calls_registered_tool msg then [backend_call w (tool_arguments msg)] else [])
         ++ [HttpReply 200 (JsonBody (JObj [("ok", JBool true)]))],
       Returned tt)%list.
Proof.
  intros w clients cid raw msg Hparse Hmsg Hgone.
  destruct (server_run_uniform msg w Hmsg) as (pre & obj & Hrun & Hpre & _).
  rewrite server_sse_post_run, Hparse, (Hrun _ (sse_responder_quiet _)), <- Hpre.
  assert (Hnone : fst (Server.sse_responder (Server.clients_get clients cid) obj w) = []).
  { destruct (Server.clients_get clients cid) as [[[]]|]; try discriminate; reflexivity. }
  rewrite Hnone, app_nil_r. reflexivity.
Qed.

Lemma X5_witness :
  JSON_parse world_ok raw_initialize = Returned msg_initialize
  /\ msg_initialize <> JNull
  /\ Server.sse_post_end [] "abc" raw_initialize world_ok
     = ([HttpReply 200 (JsonBody (JObj [("ok", JBool true)]))], Returned tt).
Proof.
  split; [reflexivity | split; [discriminate | ]].
  apply (X5_response_dropped_when_stream_is_gone world_ok [] "abc" raw_initialize
           msg_initialize eq_refl); [discriminate | reflexivity].
Defined.

(** ** Which messages get a fault *)

Lemma method_known_or_not (method : option json) :
  (exists s, In s known_methods /\ method = Some (JStr s))
  \/ (method_among known_methods method = false
      /\ forall s, In s known_methods -> is_str method s = false).
Proof.
  unfold method_among.
  destruct (existsb (is_str method) known_methods) eqn:E.
  - left. apply existsb_exists in E. destruct E as (s & Hin & Hs).
    exists s. split; [exact Hin | now apply is_str_true].
  - right. split; [reflexivity | ].
    intros s Hin. destruct (is_str method s) eqn:Hs; [ | reflexivity].
    assert (existsb (is_str method) known_methods = true)
      by (apply existsb_exists; now exists s).
    congruence.
Qed.

Lemma server_ws_result (msg : json) (w : World) (r : json) :
  Server.handleRpcMessage msg (Server.sendJSON true) w
  = Server.sendJSON true (result_response (get msg "id") r) w ->
  exists resp,
    frames (fst (Server.handleRpcMessage msg (Server.sendJSON true) w)) = [resp]
    /\ get resp "error" = None /\ get resp "result" <> None.
Proof.
  intros ->. exists (JSON_stringify (result_response (get msg "id") r)).
  destruct (result_of_result_response (get msg "id") r) as [Hr He].
  split; [reflexivity | split; [exact He | rewrite Hr; discriminate]].
Qed.

Lemma server_ws_fault (msg : json) (w : World) (m : string) :
  Server.handleRpcMessage msg (Server.sendJSON true) w
  = Server.sendJSON true (error_response (get msg "id") (-32601) m) w ->
  exists resp,
    frames (fst (Server.handleRpcMessage msg (Server.sendJSON true) w)) = [resp]
    /\ get resp "result" = None
    /\ get_opt (get resp "error") "code" = Some (JNum (-32601)).
Proof.
  intros ->. exists (JSON_stringify (error_response (get msg "id") (-32601) m)).
  destruct (error_of_error_response (get msg "id") (-32601) m) as [He Hr].
  split; [reflexivity | split; [exact Hr | rewrite He; reflexivity]].
Qed.

(** X8.  Over the WebSocket of src/server.js a message other than [null]
    gets a result exactly when its method is one of the eleven known names
    and, for tools/call, the tool is the registered one; every other message
    gets a fault, and every fault has the code -32601. *)
Theorem X8_fault_exactly_for_unknown_method_or_tool :
  forall (msg : json) (w : World),
    msg <> JNull ->
    exists resp,
      frames (fst (Server.handleRpcMessage msg (Server.sendJSON true) w)) = [resp]
      /\ (if method_among known_methods (get msg "method")
             && (negb (is_str (get msg "method") "tools/call")
                 || is_str (tool_name msg) "qdrant_search")
          then get resp "error" = None /\ get resp "result" <> None
          else get resp "result" = None
               /\ get_opt (get resp "error") "code" = Some (JNum (-32601))).
Proof.
  intros msg w Hmsg.
  destruct (method_known_or_not (get msg "method"))
    as [(s & Hin & Hm) | (Hnot & Hnone)].
  - cbn in Hin.
    repeat (destruct Hin as [<- | Hin]); try contradiction; rewrite Hm; cbn [method_among
      known_methods existsb is_str String.eqb Ascii.eqb Bool.eqb orb andb negb].
    11: {
      destruct (is_str (tool_name msg) "qdrant_search") eqn:Hn.
      - destruct (invoke_backend_answers_once w (get msg "id") (tool_arguments msg)
                    (Server.sendJSON true) sendJSON_quiet) as [result Hrun].
        exists (JSON_stringify (result_response (get msg "id") result)).
        rewrite (server_registered_tool _ _ _ Hm Hn), Hrun.
        destruct (result_of_result_response (get msg "id") result) as [Hr He].
        split; [reflexivity | split; [exact He | rewrite Hr; discriminate]].
      - apply (server_ws_fault msg w "Unknown tool").
        now apply server_unknown_tool. }
    all: eapply server_ws_result; enter_server Hm; reflexivity.
  - rewrite Hnot. cbn [andb].
    apply (server_ws_fault msg w "Method not found").
    unfold Server.handleRpcMessage.
    rewrite ?(destructured_not_null _ _ _ Hmsg), ?(member_not_null _ _ Hmsg), !bind_ret.
    repeat match goal with
           | |- context [is_str (get msg "method") ?s] =>
               rewrite (Hnone s) by (cbn; tauto)
           end.
    reflexivity.
Qed.

Lemma X8_witness :
  msg_other_tool <> JNull
  /\ exists resp,
       frames (fst (Server.handleRpcMessage msg_other_tool (Server.sendJSON true) world_ok))
       = [resp]
       /\ get resp "result" = None
       /\ get_opt (get resp "error") "code" = Some (JNum (-32601)).
Proof.
  split; [discriminate | ].
  apply (X8_fault_exactly_for_unknown_method_or_tool msg_other_tool world_ok).
  discriminate.
Defined.

(** X9.  The tool list is served under five spellings of the method by both
    revisions of [handleRpcMessage], with one and the same result; the lite
    gateway knows only [tools/list] and answers the other four with the
    fault "Method not found". *)
Theorem X9_tool_list_aliases :
  forall (msg : json) (responder : object_literal -> M unit) (w : World) (s : string),
    In s tool_list_aliases ->
    get msg "method" = Some (JStr s) ->
    Server.handleRpcMessage msg responder w
    = responder (result_response (get msg "id")
                   (JObj [("tools", JArr [Server.toolSpec])])) w
    /\ ServerCors.handleRpcMessage msg responder w
       = Server.handleRpcMessage msg responder w
    /\ Lite.dispatch msg w
       = (if String.eqb s "tools/list"
          then [WsSend (JSON_stringify (result_response (get msg "id")
                          (JObj [("tools", JArr [Lite.toolSpec])])))]
          else [WsSend (JSON_stringify (error_response (get msg "id") (-32601)
                          "Method not found"))],
          Returned tt).
Proof.
  intros msg responder w s Hin Hm. cbn in Hin.
  split; [ | split].
  - repeat (destruct Hin as [<- | Hin]); try contradiction;
      enter_server Hm; reflexivity.
  - apply cors_agrees_with_server. rewrite Hm.
    repeat (destruct Hin as [<- | Hin]); try contradiction; reflexivity.
  - repeat (destruct Hin as [<- | Hin]); try contradiction;
      enter_lite Hm; reflexivity.
Qed.

Lemma X9_witness :
  In "get_tools" tool_list_aliases
  /\ get (JObj [("id", JNum 8); ("method", JStr "get_tools")]) "method"
     = Some (JStr "get_tools")
  /\ Server.handleRpcMessage (JObj [("id", JNum 8); ("method", JStr "get_tools")])
       (Server.sendJSON true) world_ok
     = ([WsSend (JSON_stringify (result_response (Some (JNum 8))
                   (JObj [("tools", JArr [Server.toolSpec])])))],
        Returned tt).
Proof.
  split; [cbn; tauto | split; [reflexivity | ]].
  destruct (X9_tool_list_aliases (JObj [("id", JNum 8); ("method", JStr "get_tools")])
              (Server.sendJSON true) world_ok "get_tools"
              ltac:(cbn; tauto) eq_refl) as [Hrun _].
  rewrite Hrun. reflexivity.
Defined.

(** ** The lite gateway against src/server.js *)

Lemma lite_registered_tool (req : json) (w : World) :
  get req "method" = Some (JStr "tools/call") ->
  is_str (tool_name req) "qdrant_search" = true ->
  Lite.dispatch req w
  = match backend_reply w (tool_arguments req) with
    | Returned r =>
        ([backend_call w (tool_arguments req);
          WsSend (JSON_stringify (result_response (get req "id")
                    match json_body r with
                    | Returned data => json_result data
                    | Threw e => text_error_result ("Gateway error: " ++ String_of e)
                    end))],
         Returned tt)
    | Threw e =>
        ([backend_call w (tool_arguments req);
          WsSend (JSON_stringify (result_response (get req "id")
                    (text_error_result ("Gateway error: " ++ String_of e))))],
         Returned tt)
    end.
Proof.
  intros H Hn. enter_lite H. unfold tool_name in Hn. rewrite Hn.
  unfold backend_reply, backend_call, tool_arguments.
  unfold try_catch, bind, env_FASTAPI_URL, await_fetch, lift, Lite.ws_send, emit.
  cbn. destruct (fetch w _ _) as [r | e]; cbn; [ | reflexivity].
  destruct (json_body r); reflexivity.
Qed.

(** X10.  On a tools/call the lite gateway does exactly what the WebSocket
    handler of src/server.js does, as long as the backend does not answer
    with a non-success status: same fault for an unknown tool, same backend
    call, same frame. *)
Theorem X10_lite_agrees_with_server_unless_error_status :
  forall (msg : json) (w : World),
    get msg "method" = Some (JStr "tools/call") ->
    (forall r, backend_reply w (tool_arguments msg) = Returned r -> ok r = true) ->
    Lite.dispatch msg w = Server.handleRpcMessage msg (Server.sendJSON true) w.
Proof.
  intros msg w Hm Hok.
  destruct (is_str (tool_name msg) "qdrant_search") eqn:Hn.
  - rewrite (lite_registered_tool _ _ Hm Hn), (server_registered_tool _ _ _ Hm Hn).
    destruct (backend_reply w (tool_arguments msg)) as [r | e] eqn:Hreply.
    + specialize (Hok r eq_refl).
      destruct (json_body r) as [data | e] eqn:Hj.
      * symmetry. now apply (invoke_backend_success _ _ _ _ r data sendJSON_quiet).
      * rewrite (invoke_backend_raises w _ _ (Server.sendJSON true) e);
          [reflexivity | eapply raises_json; eauto].
    + rewrite (invoke_backend_raises w _ _ (Server.sendJSON true) e);
        [reflexivity | now apply raises_fetch].
  - rewrite (lite_unknown_tool _ _ Hm Hn), (server_unknown_tool _ _ _ Hm Hn).
    reflexivity.
Qed.

Lemma X10_witness :
  get msg_search "method" = Some (JStr "tools/call")
  /\ (forall r, backend_reply world_ok (tool_arguments msg_search) = Returned r ->
                ok r = true)
  /\ Lite.dispatch msg_search world_ok
     = Server.handleRpcMessage msg_search (Server.sendJSON true) world_ok.
Proof.
  assert (Hok : forall r, backend_reply world_ok (tool_arguments msg_search) = Returned r ->
                          ok r = true)
    by (intros r Hr; injection Hr as <-; reflexivity).
  split; [reflexivity | split; [exact Hok | ]].
  exact (X10_lite_agrees_with_server_unless_error_status msg_search world_ok eq_refl Hok).
Defined.

(** X11.  The lite gateway never looks at the status of the backend's
    reply: the frame depends only on whether the body decodes as JSON.  A
    non-success reply with a JSON body is returned as a successful result
    holding that body; one whose body is not JSON is reported as a gateway
    error carrying the decoder's message, without the status or the body. *)
Theorem X11_lite_ignores_the_status :
  forall (msg : json) (w : World) (r : Response),
    get msg "method" = Some (JStr "tools/call") ->
    is_str (tool_name msg) "qdrant_search" = true ->
    backend_reply w (tool_arguments msg) = Returned r ->
    Lite.dispatch msg w
    = ([backend_call w (tool_arguments msg);
        WsSend (JSON_stringify (result_response (get msg "id")
                  match json_body r with
                  | Returned data => json_result data
                  | Threw e => text_error_result ("Gateway error: " ++ String_of e)
                  end))],
       Returned tt).
Proof.
  intros msg w r Hm Hn Hreply.
  rewrite (lite_registered_tool _ _ Hm Hn), Hreply. reflexivity.
Qed.

Lemma X11_witness :
  get msg_search "method" = Some (JStr "tools/call")
  /\ is_str (tool_name msg_search) "qdrant_search" = true
  /\ ok (mkResponse false 500 (Returned "")
           (Returned (JObj [("detail", JStr "Internal Server Error")]))) = false
  /\ frames (fst (Lite.dispatch msg_search world_500_json))
     = [JSON_stringify (result_response (Some (JNum 2))
          (json_result (JObj [("detail", JStr "Internal Server Error")])))].
Proof.
  split; [reflexivity | split; [reflexivity | split; [reflexivity | ]]].
  rewrite (X11_lite_ignores_the_status msg_search world_500_json
             (mkResponse false 500 (Returned "")
                (Returned (JObj [("detail", JStr "Internal Server Error")])))
             eq_refl eq_refl eq_refl).
  reflexivity.
Defined.

(** ** The WebSocket-only programs *)

Ltac enter_ws H :=
  unfold WsGateway.dispatch, WsGatewayBasic.dispatch, WsGatewaySnake.dispatch;
  rewrite ?(destructured_not_null _ _ _ (get_some_not_null _ _ _ H)), ?(member_not_null _ _ (get_some_not_null _ _ _ H));
  rewrite !bind_ret; rewrite ?H;
  cbn [is_str String.eqb Ascii.eqb Bool.eqb orb]; rewrite ?bind_ret.

Lemma ws_programs_tools_call (msg : json) (w : World) :
  get msg "method" = Some (JStr "tools/call") ->
  WsGateway.dispatch msg w = Server.handleRpcMessage msg (Server.sendJSON true) w
  /\ WsGatewayBasic.dispatch msg w = Server.handleRpcMessage msg (Server.sendJSON true) w
  /\ WsGatewaySnake.dispatch msg w = Server.handleRpcMessage msg (Server.sendJSON true) w.
Proof.
  intros Hm. repeat split; enter_ws Hm; enter_server Hm; reflexivity.
Qed.

(** X12.  The three WebSocket-only programs handle a tools/call exactly as
    the WebSocket handler of src/server.js does: the same fault for an
    unknown tool, the same backend call, the same frame for each outcome of
    the backend. *)
Theorem X12_websocket_programs_call_the_tool_alike :
  forall (msg : json) (w : World),
    get msg "method" = Some (JStr "tools/call") ->
    WsGateway.dispatch msg w = Server.handleRpcMessage msg (Server.sendJSON true) w
    /\ WsGatewayBasic.dispatch msg w
       = Server.handleRpcMessage msg (Server.sendJSON true) w
    /\ WsGatewaySnake.dispatch msg w
       = Server.handleRpcMessage msg (Server.sendJSON true) w.
Proof. intros msg w Hm. now apply ws_programs_tools_call. Qed.

Lemma X12_witness :
  get msg_search "method" = Some (JStr "tools/call")
  /\ WsGatewaySnake.dispatch msg_search world_500
     = ([backend_call world_500 (tool_arguments msg_search);
         WsSend (JSON_stringify (result_response (Some (JNum 2))
                   (text_error_result "FastAPI 500: oops")))],
        Returned tt).
Proof.
  split; [reflexivity | ].
  destruct (X12_websocket_programs_call_the_tool_alike msg_search world_500 eq_refl)
    as (_ & _ & Hsnake).
  rewrite Hsnake. reflexivity.
Defined.

(** X13.  The program that advertises the snake_case schema is the only one
    that treats [notifications/initialized] as a notification: it sends
    nothing for it.  Every other message (other than [null]) gets exactly one
    frame there, carrying the message's id as [JSON.stringify] writes it. *)
Theorem X13_initialized_notification_gets_no_frame :
  forall (msg : json) (w : World),
    msg <> JNull ->
    if is_str (get msg "method") "notifications/initialized"
    then WsGatewaySnake.dispatch msg w = ([], Returned tt)
    else exists resp,
           frames (fst (WsGatewaySnake.dispatch msg w)) = [resp]
           /\ snd (WsGatewaySnake.dispatch msg w) = Returned tt
           /\ get resp "id" = option_map written (get msg "id").
Proof.
  intros msg w Hmsg.
  destruct (is_str (get msg "method") "notifications/initialized") eqn:Hnote.
  - apply is_str_true in Hnote. enter_ws Hnote. reflexivity.
  - destruct (is_str (get msg "method") "tools/call") eqn:Hcall.
    + apply is_str_true in Hcall.
      destruct (ws_programs_tools_call msg w Hcall) as (_ & _ & ->).
      destruct (server_run_uniform msg w Hmsg) as (pre & obj & Hrun & Hpre & Hid).
      exists (JSON_stringify obj). rewrite (Hrun _ sendJSON_quiet). cbn [fst snd].
      rewrite frames_app, Hpre.
      repeat split; [ | exact Hid].
      destruct (calls_registered_tool msg); reflexivity.
    + unfold WsGatewaySnake.dispatch.
      rewrite ?(destructured_not_null _ _ _ Hmsg), ?(member_not_null _ _ Hmsg), !bind_ret, Hnote, Hcall.
      split_ifs;
        match goal with
        | |- context [WsGatewaySnake.send ?o w] =>
            exists (JSON_stringify o); split; [reflexivity | split; [reflexivity | ]]
        end;
        first [apply id_of_result_response | apply id_of_error_response].
Qed.

Lemma X13_witness :
  JObj [("method", JStr "notifications/initialized")] <> JNull
  /\ WsGatewaySnake.dispatch (JObj [("method", JStr "notifications/initialized")]) world_ok
     = ([], Returned tt).
Proof.
  split; [discriminate | ].
  apply (X13_initialized_notification_gets_no_frame
           (JObj [("method", JStr "notifications/initialized")]) world_ok).
  discriminate.
Defined.

(** ** The session directory *)

Lemma server_get_delete_same (clients : Server.clients_map) (cid : string) :
  Server.clients_get (ServerHttp.clients_delete clients cid) cid = None.
Proof.
  induction clients as [ | [c entry] rest IH]; [reflexivity | ].
  cbn. destruct (String.eqb cid c) eqn:E; [exact IH | ].
  cbn. rewrite E. exact IH.
Qed.

Lemma server_get_delete_other (clients : Server.clients_map) (cid cid' : string) :
  cid' <> cid ->
  Server.clients_get (ServerHttp.clients_delete clients cid) cid'
  = Server.clients_get clients cid'.
Proof.
  intros Hne. induction clients as [ | [c entry] rest IH]; [reflexivity | ].
  cbn. destruct (String.eqb cid c) eqn:E.
  - apply String.eqb_eq in E. subst c.
    destruct (String.eqb cid' cid) eqn:E'; [ | exact IH].
    apply String.eqb_eq in E'. contradiction.
  - cbn. now rewrite IH.
Qed.

Lemma cors_has_delete_same (clients : ServerCors.clients_map) (cid : string) :
  ServerCors.clients_has (ServerCorsHttp.clients_delete clients cid) cid = false.
Proof.
  unfold ServerCors.clients_has, ServerCorsHttp.clients_delete.
  induction clients as [ | c rest IH]; [reflexivity | ].
  cbn. destruct (String.eqb cid c) eqn:E; cbn; [exact IH | ].
  now rewrite E.
Qed.

Lemma cors_has_delete_other (clients : ServerCors.clients_map) (cid cid' : string) :
  cid' <> cid ->
  ServerCors.clients_has (ServerCorsHttp.clients_delete clients cid) cid'
  = ServerCors.clients_has clients cid'.
Proof.
  intros Hne. unfold ServerCors.clients_has, ServerCorsHttp.clients_delete.
  induction clients as [ | c rest IH]; [reflexivity | ].
  cbn. destruct (String.eqb cid c) eqn:E; cbn.
  - apply String.eqb_eq in E. subst c.
    destruct (String.eqb cid' cid) eqn:E'; [ | exact IH].
    apply String.eqb_eq in E'. contradiction.
  - now rewrite IH.
Qed.

Lemma opens_stream_inv (req : Request) (cid : string) :
  opens_stream req cid = true ->
  path_is req "/sse" = true /\ String.eqb (req_method req) "GET" = true
  /\ query_cid (cid_values req) = cid /\ String.eqb cid "" = false.
Proof.
  unfold opens_stream. intros H.
  apply andb_prop in H as [H H4]. apply andb_prop in H as [H H3].
  apply andb_prop in H as [H1 H2].
  apply String.eqb_eq in H3. apply negb_true_iff in H4. auto.
Qed.

Lemma posts_to_inv (req : Request) (cid : string) :
  posts_to req cid = true ->
  path_is req "/sse" = true /\ String.eqb (req_method req) "POST" = true
  /\ query_cid (cid_values req) = cid.
Proof.
  unfold posts_to. intros H.
  apply andb_prop in H as [H H3]. apply andb_prop in H as [H1 H2].
  apply String.eqb_eq in H3. auto.
Qed.

Lemma path_sse_only (req : Request) :
  path_is req "/sse" = true ->
  path_is req "/.well-known/mcp" = false /\ path_is req "/" = false.
Proof.
  unfold path_is. destruct (pathname req) as [p | ]; [ | discriminate].
  intros H. apply String.eqb_eq in H. subst p. split; reflexivity.
Qed.

Lemma method_post_only (req : Request) :
  String.eqb (req_method req) "POST" = true ->
  String.eqb (req_method req) "GET" = false
  /\ String.eqb (req_method req) "OPTIONS" = false.
Proof. intros H. apply String.eqb_eq in H. rewrite H. split; reflexivity. Qed.

Lemma method_get_only (req : Request) :
  String.eqb (req_method req) "GET" = true ->
  String.eqb (req_method req) "OPTIONS" = false.
Proof. intros H. apply String.eqb_eq in H. rewrite H. reflexivity. Qed.

Lemma server_route_open (w : World) (clients : Server.clients_map)
  (req : Request) (cid : string) :
  opens_stream req cid = true ->
  ServerHttp.route w clients req
  = (EventStream ServerHttp.stream_headers ("open", JObj [("ok", JBool true)]) None,
     ServerHttp.clients_set clients cid (Server.mkClient true)).
Proof.
  intros H. apply opens_stream_inv in H as (Hp & Hm & Hc & Hne).
  destruct (path_sse_only _ Hp) as [Hp1 Hp2].
  unfold ServerHttp.route. rewrite Hp1, Hp2, Hp, Hm, Hc, Hne. reflexivity.
Qed.

Lemma server_route_post (w : World) (clients : Server.clients_map)
  (req : Request) (cid : string) :
  posts_to req cid = true ->
  ServerHttp.route w clients req
  = (if String.eqb cid "" || negb (Server.clients_has clients cid)
     then Ended 400 [] (Some (TextBody "invalid cid"))
     else ReadingBody cid,
     clients).
Proof.
  intros H. apply posts_to_inv in H as (Hp & Hm & Hc).
  destruct (path_sse_only _ Hp) as [Hp1 Hp2].
  destruct (method_post_only _ Hm) as [Hg _].
  unfold ServerHttp.route. rewrite Hp1, Hp2, Hp, Hm, Hg, Hc. cbn.
  destruct (_ || _); reflexivity.
Qed.

Lemma cors_route_open (w : World) (clients : ServerCors.clients_map)
  (req : Request) (cid : string) :
  opens_stream req cid = true ->
  ServerCorsHttp.route w clients req
  = (EventStream (ServerCorsHttp.cors_headers ++ ServerCorsHttp.stream_headers)%list
       ("open", JObj [("ok", JBool true)]) (Some 15000%N),
     ServerCorsHttp.clients_set clients cid).
Proof.
  intros H. apply opens_stream_inv in H as (Hp & Hm & Hc & Hne).
  destruct (path_sse_only _ Hp) as [Hp1 Hp2].
  unfold ServerCorsHttp.route.
  rewrite (method_get_only _ Hm), Hp1, Hp2, Hp, Hm, Hc, Hne. reflexivity.
Qed.

Lemma cors_route_post (w : World) (clients : ServerCors.clients_map)
  (req : Request) (cid : string) :
  posts_to req cid = true ->
  ServerCorsHttp.route w clients req
  = (if String.eqb cid "" || negb (ServerCors.clients_has clients cid)
     then Ended 400 ServerCorsHttp.cors_headers (Some (TextBody "invalid cid"))
     else ReadingBody cid,
     clients).
Proof.
  intros H. apply posts_to_inv in H as (Hp & Hm & Hc).
  destruct (path_sse_only _ Hp) as [Hp1 Hp2].
  destruct (method_post_only _ Hm) as [Hg Ho].
  unfold ServerCorsHttp.route. rewrite Ho, Hp1, Hp2, Hp, Hm, Hg, Hc. cbn.
  destruct (_ || _); reflexivity.
Qed.

(** X14.  Opening an event stream registers its cid: right after a GET of
    /sse with a non-empty cid, a POST of /sse with that cid is accepted (its
    body is read), in src/server.js and in the revision, whatever the
    directory held before. *)
Theorem X14_post_accepted_after_open :
  forall (w : World) (clients : Server.clients_map) (clients' : ServerCors.clients_map)
         (first_get post : Request) (cid : string),
    opens_stream first_get cid = true ->
    posts_to post cid = true ->
    fst (ServerHttp.route w (snd (ServerHttp.route w clients first_get)) post)
    = ReadingBody cid
    /\ fst (ServerCorsHttp.route w (snd (ServerCorsHttp.route w clients' first_get)) post)
       = ReadingBody cid.
Proof.
  intros w clients clients' first_get post cid Hopen Hpost.
  pose proof (opens_stream_inv _ _ Hopen) as (_ & _ & _ & Hne).
  rewrite (server_route_open _ _ _ _ Hopen), (cors_route_open _ _ _ _ Hopen).
  cbn [snd].
  rewrite (server_route_post _ _ _ _ Hpost), (cors_route_post _ _ _ _ Hpost).
  unfold Server.clients_has, ServerHttp.clients_set, ServerCors.clients_has,
    ServerCorsHttp.clients_set.
  cbn. rewrite String.eqb_refl, Hne. split; reflexivity.
Qed.

Lemma X14_witness :
  opens_stream (sse_request "GET" "abc") "abc" = true
  /\ posts_to (sse_request "POST" "abc") "abc" = true
  /\ fst (ServerHttp.route world_ok
            (snd (ServerHttp.route world_ok [] (sse_request "GET" "abc")))
            (sse_request "POST" "abc"))
     = ReadingBody "abc".
Proof.
  split; [reflexivity | split; [reflexivity | ]].
  apply (X14_post_accepted_after_open world_ok [] [] (sse_request "GET" "abc")
           (sse_request "POST" "abc") "abc" eq_refl eq_refl).
Defined.

(** X15.  The close handler of a stream deletes the directory entry of its
    cid, not of its connection: once it has run, a POST with that cid is
    refused with 400 "invalid cid" whatever the directory held, and so also
    when a second stream had been opened under the same cid in the meantime
    and is still open. *)
Theorem X15_post_refused_after_close :
  forall (w : World) (clients : Server.clients_map) (clients' : ServerCors.clients_map)
         (reopen post : Request) (cid : string),
    opens_stream reopen cid = true ->
    posts_to post cid = true ->
    fst (ServerHttp.route w (ServerHttp.on_close clients cid) post)
    = Ended 400 [] (Some (TextBody "invalid cid"))
    /\ fst (ServerHttp.route w
              (ServerHttp.on_close (snd (ServerHttp.route w clients reopen)) cid) post)
       = Ended 400 [] (Some (TextBody "invalid cid"))
    /\ fst (ServerCorsHttp.route w (ServerCorsHttp.on_close clients' cid) post)
       = Ended 400 ServerCorsHttp.cors_headers (Some (TextBody "invalid cid"))
    /\ fst (ServerCorsHttp.route w
              (ServerCorsHttp.on_close (snd (ServerCorsHttp.route w clients' reopen)) cid)
              post)
       = Ended 400 ServerCorsHttp.cors_headers (Some (TextBody "invalid cid")).
Proof.
  intros w clients clients' reopen post cid Hopen Hpost.
  rewrite !(server_route_post _ _ _ _ Hpost), !(cors_route_post _ _ _ _ Hpost).
  unfold ServerHttp.on_close, ServerCorsHttp.on_close, Server.clients_has.
  rewrite !server_get_delete_same, !cors_has_delete_same, !orb_true_r.
  repeat split.
Qed.

Lemma X15_witness :
  opens_stream (sse_request "GET" "abc") "abc" = true
  /\ posts_to (sse_request "POST" "abc") "abc" = true
  /\ fst (ServerHttp.route world_ok
            (ServerHttp.on_close
               (snd (ServerHttp.route world_ok
                       (snd (ServerHttp.route world_ok [] (sse_request "GET" "abc")))
                       (sse_request "GET" "abc")))
               "abc")
            (sse_request "POST" "abc"))
     = Ended 400 [] (Some (TextBody "invalid cid")).
Proof.
  split; [reflexivity | split; [reflexivity | ]].
  destruct (X15_post_refused_after_close world_ok
              (snd (ServerHttp.route world_ok [] (sse_request "GET" "abc"))) []
              (sse_request "GET" "abc") (sse_request "POST" "abc") "abc"
              eq_refl eq_refl) as (_ & H & _).
  exact H.
Defined.

Lemma server_get_set_other (clients : Server.clients_map) (cid cid' : string)
  (entry : Server.sse_client) :
  cid' <> cid ->
  Server.clients_get (ServerHttp.clients_set clients cid entry) cid'
  = Server.clients_get clients cid'.
Proof.
  intros Hne. unfold ServerHttp.clients_set. cbn.
  destruct (String.eqb cid' cid) eqn:E.
  - apply String.eqb_eq in E. contradiction.
  - now apply server_get_delete_other.
Qed.

Lemma cors_has_set_other (clients : ServerCors.clients_map) (cid cid' : string) :
  cid' <> cid ->
  ServerCors.clients_has (ServerCorsHttp.clients_set clients cid) cid'
  = ServerCors.clients_has clients cid'.
Proof.
  intros Hne. unfold ServerCorsHttp.clients_set.
  change (ServerCors.clients_has (cid :: ServerCorsHttp.clients_delete clients cid) cid')
    with (String.eqb cid' cid
          || ServerCors.clients_has (ServerCorsHttp.clients_delete clients cid) cid').
  destruct (String.eqb cid' cid) eqn:E.
  - apply String.eqb_eq in E. contradiction.
  - now apply cors_has_delete_other.
Qed.

(** X16.  Sessions do not disturb each other: opening or closing the stream
    of one cid leaves the answer to a POST with any other cid as it was. *)
Theorem X16_other_sessions_are_untouched :
  forall (w : World) (clients : Server.clients_map) (clients' : ServerCors.clients_map)
         (first_get post : Request) (cid other : string),
    other <> cid ->
    opens_stream first_get cid = true ->
    posts_to post other = true ->
    fst (ServerHttp.route w (snd (ServerHttp.route w clients first_get)) post)
    = fst (ServerHttp.route w clients post)
    /\ fst (ServerHttp.route w (ServerHttp.on_close clients cid) post)
       = fst (ServerHttp.route w clients post)
    /\ fst (ServerCorsHttp.route w (snd (ServerCorsHttp.route w clients' first_get)) post)
       = fst (ServerCorsHttp.route w clients' post)
    /\ fst (ServerCorsHttp.route w (ServerCorsHttp.on_close clients' cid) post)
       = fst (ServerCorsHttp.route w clients' post).
Proof.
  intros w clients clients' first_get post cid other Hne Hopen Hpost.
  rewrite (server_route_open _ _ _ _ Hopen), (cors_route_open _ _ _ _ Hopen).
  cbn [snd].
  rewrite !(server_route_post _ _ _ _ Hpost), !(cors_route_post _ _ _ _ Hpost).
  unfold ServerHttp.on_close, ServerCorsHttp.on_close, Server.clients_has.
  rewrite (server_get_set_other _ _ _ _ Hne), (server_get_delete_other _ _ _ Hne),
    (cors_has_set_other _ _ _ Hne), (cors_has_delete_other _ _ _ Hne).
  repeat split.
Qed.

Lemma X16_witness :
  "xyz" <> "abc"
  /\ opens_stream (sse_request "GET" "abc") "abc" = true
  /\ posts_to (sse_request "POST" "xyz") "xyz" = true
  /\ fst (ServerHttp.route world_ok
            (ServerHttp.on_close [("xyz", Server.mkClient true)] "abc")
            (sse_request "POST" "xyz"))
     = ReadingBody "xyz".
Proof.
  split; [discriminate | split; [reflexivity | split; [reflexivity | ]]].
  destruct (X16_other_sessions_are_untouched world_ok [("xyz", Server.mkClient true)] []
              (sse_request "GET" "abc") (sse_request "POST" "xyz") "abc" "xyz"
              ltac:(discriminate) eq_refl eq_refl) as (_ & H & _).
  rewrite H. reflexivity.
Defined.

(** X17.  The round trip of the stream transport in src/server.js: after a
    stream has been opened with a cid, a POST with that cid whose body
    decodes to a message other than [null] makes at most the one backend
    call, writes exactly one [message] event carrying the message's id (as
    [JSON.stringify] writes it) to
    the stream, and is then answered 200 [{ok:true}]. *)
Theorem X17_post_after_open_is_delivered_on_the_stream :
  forall (w : World) (clients : Server.clients_map) (first_get : Request)
         (cid raw : string) (msg : json),
    opens_stream first_get cid = true ->
    JSON_parse w raw = Returned msg ->
    msg <> JNull ->
    exists resp,
      Server.sse_post (snd (ServerHttp.route w clients first_get))
        (snd (ServerHttp.route w clients first_get)) cid raw w
      = (((if calls_registered_tool msg
           then [backend_call w (tool_arguments msg)] else [])
          ++ [SseWrite "message" resp;
              HttpReply 200 (JsonBody (JObj [("ok", JBool true)]))])%list,
         Returned tt)
      /\ get resp "id" = option_map written (get msg "id").
Proof.
  intros w clients first_get cid raw msg Hopen Hparse Hmsg.
  pose proof (opens_stream_inv _ _ Hopen) as (_ & _ & _ & Hne).
  rewrite (server_route_open _ _ _ _ Hopen). cbn [snd].
  destruct (server_run_uniform msg w Hmsg) as (pre & obj & Hrun & Hpre & Hid).
  exists (JSON_stringify obj). split; [ | exact Hid].
  unfold Server.sse_post, Server.clients_has, ServerHttp.clients_set.
  cbn [Server.clients_get]. rewrite String.eqb_refl, Hne. cbn [orb negb].
  rewrite server_sse_post_run, Hparse. cbn [Server.clients_get].
  rewrite String.eqb_refl, (Hrun _ (sse_responder_quiet _)), <- Hpre.
  cbn. rewrite <- app_assoc. reflexivity.
Qed.

Lemma X17_witness :
  opens_stream (sse_request "GET" "abc") "abc" = true
  /\ JSON_parse world_ok raw_initialize = Returned msg_initialize
  /\ msg_initialize <> JNull
  /\ exists resp,
       Server.sse_post (snd (ServerHttp.route world_ok [] (sse_request "GET" "abc")))
         (snd (ServerHttp.route world_ok [] (sse_request "GET" "abc")))
         "abc" raw_initialize world_ok
       = ([SseWrite "message" resp;
           HttpReply 200 (JsonBody (JObj [("ok", JBool true)]))], Returned tt)
       /\ get resp "id" = Some (JNum 1).
Proof.
  split; [reflexivity | split; [reflexivity | split; [discriminate | ]]].
  apply (X17_post_after_open_is_delivered_on_the_stream world_ok []
           (sse_request "GET" "abc") "abc" raw_initialize msg_initialize
           eq_refl eq_refl).
  discriminate.
Defined.

Lemma directory_ok_delete (clients : Server.clients_map) (cid : string) :
  directory_ok clients = true ->
  directory_ok (ServerHttp.clients_delete clients cid) = true.
Proof.
  induction clients as [ | [c entry] rest IH]; [reflexivity | ].
  cbn. intros H. apply andb_prop in H as [Hhead Hrest].
  destruct (String.eqb cid c); [now apply IH | ].
  cbn. rewrite Hhead. now apply IH.
Qed.

(** X18.  The directory of src/server.js changes only when a stream is
    opened, and then by the entry of that stream's cid.  It never holds the
    empty cid and never an entry that is not alive: a directory with these
    two properties keeps them through every request and every close. *)
Theorem X18_directory_invariant :
  forall (w : World) (clients : Server.clients_map) (req : Request) (cid : string),
    directory_ok clients = true ->
    directory_ok (snd (ServerHttp.route w clients req)) = true
    /\ directory_ok (ServerHttp.on_close clients cid) = true
    /\ snd (ServerHttp.route w clients req)
       = (if opens_stream req (query_cid (cid_values req))
          then ServerHttp.clients_set clients (query_cid (cid_values req))
                 (Server.mkClient true)
          else clients).
Proof.
  intros w clients req cid Hok.
  assert (Hsnd : snd (ServerHttp.route w clients req)
                 = (if opens_stream req (query_cid (cid_values req))
                    then ServerHttp.clients_set clients (query_cid (cid_values req))
                           (Server.mkClient true)
                    else clients)).
  { unfold ServerHttp.route, opens_stream. rewrite String.eqb_refl.
    destruct (path_is req "/sse") eqn:Hp.
    - destruct (path_sse_only _ Hp) as [-> ->].
      destruct (String.eqb (req_method req) "GET") eqn:Hg; cbn.
      + destruct (String.eqb (query_cid (cid_values req)) ""); reflexivity.
      + destruct (String.eqb (req_method req) "POST"); cbn; [ | reflexivity].
        destruct (_ || _); reflexivity.
    - cbn. destruct (path_is req "/.well-known/mcp"); [reflexivity | ].
      destruct (path_is req "/"); reflexivity. }
  split; [ | split; [now apply directory_ok_delete | exact Hsnd]].
  rewrite Hsnd.
  destruct (opens_stream req (query_cid (cid_values req))) eqn:Hopen; [ | exact Hok].
  apply opens_stream_inv in Hopen as (_ & _ & _ & Hne).
  unfold ServerHttp.clients_set. cbn. rewrite Hne. cbn.
  now apply directory_ok_delete.
Qed.

Lemma X18_witness :
  directory_ok [("abc", Server.mkClient true)] = true
  /\ directory_ok (snd (ServerHttp.route world_ok [("abc", Server.mkClient true)]
                          (sse_request "GET" "xyz"))) = true.
Proof.
  split; [reflexivity | ].
  apply (X18_directory_invariant world_ok [("abc", Server.mkClient true)]
           (sse_request "GET" "xyz") "abc" eq_refl).
Defined.

(** ** Cross-origin headers *)




(** ** Subprotocol selection *)

(** X20.  What [handleProtocols] selects depends on the kind of value it is
    given.  Given an array of offers it selects "mcp" whenever the array
    contains it, wherever it stands, and otherwise the first offer unless
    that is the empty string; what it selects is then always a non-empty
    string the client offered.  Given a [Set] of offers it selects nothing,
    even when "mcp" is offered.  Given a string it selects that string's
    first character, and given [undefined] or [null] nothing. *)
Theorem X20_handleProtocols_by_kind :
  forall (offered : list string) (p s : string),
    (In "mcp" offered -> handleProtocols (ProtocolsArray offered) = Some "mcp")
    /\ (handleProtocols (ProtocolsArray offered) = Some p -> In p offered /\ p <> "")
    /\ (~ In "mcp" offered ->
        handleProtocols (ProtocolsArray offered)
        = match offered with
          | first :: _ => if String.eqb first "" then None else Some first
          | [] => None
          end)
    /\ handleProtocols (ProtocolsSet offered) = None
    /\ handleProtocols (ProtocolsString s)
       = match s with
         | String c _ => Some (String c EmptyString)
         | EmptyString => None
         end
    /\ handleProtocols ProtocolsUndefined = None
    /\ handleProtocols ProtocolsNull = None.
Proof.
  intros offered p s.
  assert (Hrest : handleProtocols (ProtocolsSet offered) = None
    /\ handleProtocols (ProtocolsString s)
       = match s with
         | String c _ => Some (String c EmptyString)
         | EmptyString => None
         end
    /\ handleProtocols ProtocolsUndefined = None
    /\ handleProtocols ProtocolsNull = None).
  { split; [reflexivity | split; [ | split; reflexivity]].
    destruct s as [ | c rest]; reflexivity. }
  unfold handleProtocols at 1 2 3. unfold truthy_string, first_of.
  destruct (existsb (String.eqb "mcp") offered) eqn:E.
  - apply existsb_exists in E as (x & Hin & Hx). apply String.eqb_eq in Hx. subst x.
    split; [reflexivity | split; [ | split; [ | exact Hrest]]].
    + intros H. injection H as <-. split; [exact Hin | discriminate].
    + intros Hnot. contradiction.
  - split; [ | split; [ | split; [ | exact Hrest]]].
    + intros Hin.
      assert (existsb (String.eqb "mcp") offered = true)
        by (apply existsb_exists; exists "mcp"; split; [exact Hin | reflexivity]).
      congruence.
    + destruct offered as [ | first rest]; [discriminate | ].
      destruct (String.eqb first "") eqn:Ef; [discriminate | ].
      intros H. injection H as <-. split; [now left | ].
      intros ->. discriminate.
    + intros _. destruct offered; reflexivity.
Qed.

Lemma X20_witness :
  In "mcp" ["graphql-ws"; "mcp"]
  /\ handleProtocols (ProtocolsArray ["graphql-ws"; "mcp"]) = Some "mcp"
  /\ (In "mcp" ["graphql-ws"; "mcp"] /\ "mcp" <> "")
  /\ ~ In "mcp" ["graphql-ws"; "soap"]
  /\ handleProtocols (ProtocolsArray ["graphql-ws"; "soap"]) = Some "graphql-ws"
  /\ handleProtocols (ProtocolsSet ["graphql-ws"; "mcp"]) = None.
Proof.
  assert (Hin : In "mcp" ["graphql-ws"; "mcp"]) by (cbn; tauto).
  assert (Hnot : ~ In "mcp" ["graphql-ws"; "soap"])
    by (cbn; intros [H | [H | []]]; discriminate).
  destruct (X20_handleProtocols_by_kind ["graphql-ws"; "mcp"] "mcp" "")
    as (Hmcp & Hsel & _ & Hset & _).
  destruct (X20_handleProtocols_by_kind ["graphql-ws"; "soap"] "graphql-ws" "")
    as (_ & _ & Hfirst & _).
  split; [exact Hin | split; [exact (Hmcp Hin) | split; [exact (Hsel (Hmcp Hin)) | ]]].
  split; [exact Hnot | split; [exact (Hfirst Hnot) | exact Hset]].
Defined.
